(** * creatorhub-functions: the asset API of [function_app.py]

    A shallow embedding of the six HTTP handlers of [function_app.py]
    (create, get, list, update, delete, upload) and of the Python values
    they manipulate, followed by the properties of the handlers.

    The two managed services the handlers talk to (the Cosmos container and
    the blob container) are interfaces: the handlers are written once against
    the type classes [CosmosContainer] and [BlobContainer], the way the Python
    code is written against the SDK client objects, and are then run on
    finite-map instances of both. The finite-map stores raise the errors
    their contract names (a missing or a taken id, a missing blob) and no
    others; what a handler does when a store call fails for any reason is
    stated against the interface. *)

From Stdlib Require Import Ascii Floats.SpecFloat.
From stdpp Require Import base option strings list gmap.

#[local] Set Warnings "-register-all".

(** ** Python values *)

(** What [req.get_json()] can return: [json.loads] yields [None], a [bool],
    an [int], a [float], a [str], a [list] or a [dict]. A [dict] keeps its
    keys in insertion order, hence the association list; a key occurs once
    in a [dict], and the functions below read the first binding of a key. *)
Inductive json : Type :=
  | JNull
  | JBool (b : bool)
  | JInt (n : Z)
  | JFloat (f : spec_float)
  | JStr (s : string)
  | JArr (xs : list json)
  | JObj (fields : list (string * json)).

Abbreviation dict := (list (string * json)).

(** The exceptions that can reach an [except] clause of the handlers. The
    Cosmos SDK and the blob SDK have separate exception classes:
    [exceptions.CosmosResourceNotFoundError] is raised by the former only. *)
Inductive cosmos_error : Type :=
  | CosmosResourceNotFoundError
  | CosmosResourceExistsError
  | CosmosHttpResponseError.

Inductive blob_error : Type :=
  | ResourceNotFoundError
  | HttpResponseError
  | ServiceRequestError.

Inductive exn : Type :=
  | ValueError
  | TypeError
  | AttributeError
  | KeyError (key : string)
  | IndexError
  | CosmosError (e : cosmos_error)
  | BlobError (e : blob_error).

(** The outcome of evaluating a Python expression or statement. *)
Inductive outcome (A : Type) : Type :=
  | Return (a : A)
  | Raise (e : exn).
Arguments Return {A} a.
Arguments Raise {A} e.

(** *** [dict] operations *)

(** [key in d] *)
Fixpoint dict_contains (key : string) (d : dict) : bool :=
  match d with
  | [] => false
  | (k, _) :: d' => if decide (k = key) then true else dict_contains key d'
  end.

(** [d.get(key)] as an option *)
Fixpoint dict_lookup (key : string) (d : dict) : option json :=
  match d with
  | [] => None
  | (k, v) :: d' => if decide (k = key) then Some v else dict_lookup key d'
  end.

(** [d[key]] *)
Definition dict_getitem (d : dict) (key : string) : outcome json :=
  match dict_lookup key d with
  | Some v => Return v
  | None => Raise (KeyError key)
  end.

(** [d.get(key, dflt)] *)
Definition dict_get (d : dict) (key : string) (dflt : json) : json :=
  match dict_lookup key d with
  | Some v => v
  | None => dflt
  end.

(** [d[key] = v]: an existing key keeps its position, a new key goes last. *)
Fixpoint dict_setitem (key : string) (v : json) (d : dict) : dict :=
  match d with
  | [] => [(key, v)]
  | (k, x) :: d' =>
      if decide (k = key) then (k, v) :: d' else (k, x) :: dict_setitem key v d'
  end.

(** The keys of a dict, in order. *)
Definition dict_keys (d : dict) : list string := d.*1.

(** *** Operations on an arbitrary parsed value *)

(** [sub in s] on two [str]: substring test. *)
Fixpoint str_contains (sub s : string) : bool :=
  if String.prefix sub s then true
  else match s with
       | EmptyString => false
       | String _ s' => str_contains sub s'
       end.

(** [key in data] for a [str] key. On a [dict] it tests the keys, on a
    [list] the elements (only a [str] equals a [str]), on a [str] it is the
    substring test; the other values are not iterable. *)
Definition py_contains (key : string) (data : json) : outcome bool :=
  match data with
  | JObj d => Return (dict_contains key d)
  | JArr xs =>
      Return (existsb (λ x, match x with
                            | JStr s => bool_decide (s = key)
                            | _ => false
                            end) xs)
  | JStr s => Return (str_contains key s)
  | JNull | JBool _ | JInt _ | JFloat _ => Raise TypeError
  end.

(** [data[key]] for a [str] key: only a [dict] can be indexed by a [str]. *)
Definition py_getitem (data : json) (key : string) : outcome json :=
  match data with
  | JObj d => dict_getitem d key
  | _ => Raise TypeError
  end.

(** [data.get]: the attribute lookup, which only succeeds on a [dict]. It is
    evaluated before the arguments of the call. *)
Definition py_get_attr (data : json) : outcome dict :=
  match data with
  | JObj d => Return d
  | _ => Raise AttributeError
  end.

(** [s.split(sep)] for a one-character separator: never an empty list. *)
Fixpoint str_split (sep : ascii) (s : string) : list string :=
  match s with
  | EmptyString => [EmptyString]
  | String c s' =>
      if decide (c = sep) then EmptyString :: str_split sep s'
      else match str_split sep s' with
           | [] => [String c EmptyString]
           | seg :: segs => String c seg :: segs
           end
  end.

(** [xs[-1]] *)
Definition list_last (xs : list string) : outcome string :=
  match last xs with
  | Some x => Return x
  | None => Raise IndexError
  end.

(** [v.split("/")]: an attribute that only a [str] has. *)
Definition py_split_slash (v : json) : outcome (list string) :=
  match v with
  | JStr s => Return (str_split "/"%char s)
  | _ => Raise AttributeError
  end.

(** *** The clock and the UUID generator *)

(** [datetime.utcnow()]: a naive datetime holding the current UTC time. *)
Record datetime : Type := {
  year : nat; month : nat; day : nat;
  hour : nat; minute : nat; second : nat; microsecond : nat
}.

Definition digit (n : nat) : ascii := ascii_of_nat (48 + n mod 10).

(** [n] in decimal on exactly [width] digits, zero-padded ("%0<width>d"). *)
Fixpoint zero_pad (width n : nat) : string :=
  match width with
  | O => EmptyString
  | S w => zero_pad w (n / 10) +:+ String (digit n) EmptyString
  end.

(** [dt.isoformat()]: [YYYY-MM-DDTHH:MM:SS], followed by [.ffffff] when the
    microsecond field is not zero. *)
Definition isoformat (dt : datetime) : string :=
  zero_pad 4 (year dt) +:+ "-" +:+ zero_pad 2 (month dt) +:+ "-" +:+
  zero_pad 2 (day dt) +:+ "T" +:+ zero_pad 2 (hour dt) +:+ ":" +:+
  zero_pad 2 (minute dt) +:+ ":" +:+ zero_pad 2 (second dt) +:+
  (if decide (microsecond dt = 0) then ""
   else "." +:+ zero_pad 6 (microsecond dt)).

(** What a handler reads from its environment during one invocation: every
    handler calls [uuid.uuid4()] at most once and [datetime.utcnow()] at most
    once. [uuid4] is the text [str(uuid.uuid4())]. *)
Record Env : Type := {
  uuid4 : string;
  utcnow : datetime
}.

(** ** HTTP requests and responses *)

(** [func.HttpRequest], as far as the handlers look at it:
    [route_id] is [req.route_params.get("id")] (the route template
    [assets/{id}] binds it on every request dispatched to the handlers that
    read it); [get_body] is [req.get_body()]; [parsed_json] is the value
    [req.get_json()] returns, [None] when the body is not valid JSON and
    [get_json] raises [ValueError]; [content_type] is
    [req.headers.get("Content-Type")]. *)
Record HttpRequest : Type := {
  route_id : string;
  get_body : list Byte.byte;
  parsed_json : option json;
  content_type : option string
}.

Definition get_json (req : HttpRequest) : outcome json :=
  match parsed_json req with
  | Some data => Return data
  | None => Raise ValueError
  end.

(** The body handed to [func.HttpResponse]: a literal text, the text
    [json.dumps(v)] of a value, or the text [str(e)] of an exception. A
    response built without a body has the empty text. *)
Inductive body : Type :=
  | Text (s : string)
  | JsonDumps (v : json)
  | StrOf (e : exn).

Record HttpResponse : Type := {
  resp_body : body;
  status_code : Z;
  mimetype : string
}.

Definition text_response (s : string) (code : Z) : HttpResponse :=
  {| resp_body := Text s; status_code := code; mimetype := "text/plain" |}.

Definition json_response (v : json) (code : Z) : HttpResponse :=
  {| resp_body := JsonDumps v; status_code := code;
     mimetype := "application/json" |}.

Definition error_response (e : exn) (code : Z) : HttpResponse :=
  {| resp_body := StrOf e; status_code := code; mimetype := "text/plain" |}.

Definition empty_response (code : Z) : HttpResponse := text_response "" code.

(** ** The two external stores *)

(** The document store client ([container]) and the object store client
    ([blob_container]) are SDK objects. Their methods either raise one of the
    SDK's own exceptions or succeed; a method that raises leaves the store as
    it was. *)
Class CosmosContainer (C : Type) : Type := {
  cosmos_create_item : dict → C → cosmos_error + C;
  cosmos_read_item : string → C → cosmos_error + dict;
  cosmos_read_all_items : C → cosmos_error + list dict;
  cosmos_replace_item : string → dict → C → cosmos_error + C;
  cosmos_delete_item : string → C → cosmos_error + C
}.

Class BlobContainer (B : Type) : Type := {
  blob_delete_blob : string → B → blob_error + B;
  blob_upload_blob : string → list Byte.byte → string → B → blob_error + B;
  blob_client_url : B → string → string
}.

(** Every call a handler makes on a store client, kept in the order made. *)
Inductive call : Type :=
  | CreateItem (doc : dict)
  | ReadItem (item : string)
  | ReadAllItems
  | ReplaceItem (item : string) (doc : dict)
  | DeleteItem (item : string)
  | DeleteBlob (name : string)
  | UploadBlob (name : string) (data : list Byte.byte) (ctype : string).

(** The state a handler runs in: the two module-level clients, and the log of
    the calls made on them so far. *)
Record World (C B : Type) : Type := {
  container : C;
  blob_container : B;
  calls : list call
}.
Arguments container {C B} w.
Arguments blob_container {C B} w.
Arguments calls {C B} w.

(** ** Python statements as state-passing computations *)

(** A statement runs in a world and either returns or raises; what it did to
    the stores before raising stays done. *)
Definition M (C B A : Type) : Type := World C B → outcome A * World C B.

#[global] Instance outcome_ret : MRet outcome := λ A a, Return a.
#[global] Instance outcome_bind : MBind outcome := λ A A' k o,
  match o with
  | Return a => k a
  | Raise e => Raise e
  end.

#[global] Instance M_ret {C B} : MRet (M C B) := λ A a w, (Return a, w).
#[global] Instance M_bind {C B} : MBind (M C B) := λ A A' k m w,
  match m w with
  | (Return a, w') => k a w'
  | (Raise e, w') => (Raise e, w')
  end.

(** A pure expression used as a statement. *)
Definition lift {C B A} (o : outcome A) : M C B A := λ w, (o, w).

(** [try: body except ...: ...]. The clause list is a function from the
    exception raised to the handler that takes it, if any; an exception no
    clause takes leaves the [try] statement. *)
Definition try_except {C B A} (body : M C B A)
    (clauses : exn → option (M C B A)) : M C B A := λ w,
  match body w with
  | (Return a, w') => (Return a, w')
  | (Raise e, w') =>
      match clauses e with
      | Some handler => handler w'
      | None => (Raise e, w')
      end
  end.

(** [except Exception as e:] takes every exception of the model. *)
Definition except_Exception {C B A} (handler : exn → M C B A)
    : exn → option (M C B A) :=
  λ e, Some (handler e).

(** [except exceptions.CosmosResourceNotFoundError:] *)
Definition except_CosmosResourceNotFoundError {C B A} (handler : M C B A)
    : exn → option (M C B A) :=
  λ e, match e with
       | CosmosError CosmosResourceNotFoundError => Some handler
       | _ => None
       end.

Section StoreCalls.
Context {C B : Type} `{!CosmosContainer C} `{!BlobContainer B}.

Definition log (c : call) (w : World C B) : World C B :=
  {| container := container w; blob_container := blob_container w;
     calls := calls w ++ [c] |}.

Definition set_container (c : C) (w : World C B) : World C B :=
  {| container := c; blob_container := blob_container w; calls := calls w |}.

Definition set_blob_container (b : B) (w : World C B) : World C B :=
  {| container := container w; blob_container := b; calls := calls w |}.

(** [container.create_item(doc)] *)
Definition create_item (doc : dict) : M C B unit := λ w,
  let w := log (CreateItem doc) w in
  match cosmos_create_item doc (container w) with
  | inl e => (Raise (CosmosError e), w)
  | inr c => (Return (), set_container c w)
  end.

(** [container.read_item(item=item, partition_key=item)] *)
Definition read_item (item : string) : M C B dict := λ w,
  let w := log (ReadItem item) w in
  match cosmos_read_item item (container w) with
  | inl e => (Raise (CosmosError e), w)
  | inr doc => (Return doc, w)
  end.

(** [list(container.read_all_items())] *)
Definition read_all_items : M C B (list dict) := λ w,
  let w := log ReadAllItems w in
  match cosmos_read_all_items (container w) with
  | inl e => (Raise (CosmosError e), w)
  | inr docs => (Return docs, w)
  end.

(** [container.replace_item(item=item, body=doc)] *)
Definition replace_item (item : string) (doc : dict) : M C B unit := λ w,
  let w := log (ReplaceItem item doc) w in
  match cosmos_replace_item item doc (container w) with
  | inl e => (Raise (CosmosError e), w)
  | inr c => (Return (), set_container c w)
  end.

(** [container.delete_item(item=item, partition_key=item)] *)
Definition delete_item (item : string) : M C B unit := λ w,
  let w := log (DeleteItem item) w in
  match cosmos_delete_item item (container w) with
  | inl e => (Raise (CosmosError e), w)
  | inr c => (Return (), set_container c w)
  end.

(** [blob_container.delete_blob(name)] *)
Definition delete_blob (name : string) : M C B unit := λ w,
  let w := log (DeleteBlob name) w in
  match blob_delete_blob name (blob_container w) with
  | inl e => (Raise (BlobError e), w)
  | inr b => (Return (), set_blob_container b w)
  end.

(** [blob_container.get_blob_client(name).upload_blob(data, overwrite=True,
    content_settings=ContentSettings(content_type=ctype))] *)
Definition upload_blob (name : string) (data : list Byte.byte)
    (ctype : string) : M C B unit := λ w,
  let w := log (UploadBlob name data ctype) w in
  match blob_upload_blob name data ctype (blob_container w) with
  | inl e => (Raise (BlobError e), w)
  | inr b => (Return (), set_blob_container b w)
  end.

(** [blob_container.get_blob_client(name).url] *)
Definition blob_url (name : string) : M C B string := λ w,
  (Return (blob_client_url (blob_container w) name), w).

End StoreCalls.

(** ** The handlers *)

Section Handlers.
Context {C B : Type} `{!CosmosContainer C} `{!BlobContainer B}.

(** ["title" not in data or "blobUrl" not in data]: the right operand is
    only evaluated when the left one is false. *)
Definition required_missing (data : json) : outcome bool :=
  has_title ← py_contains "title" data;
  if negb has_title then mret true
  else has_blobUrl ← py_contains "blobUrl" data; mret (negb has_blobUrl).

(** The dict display of [create_asset], its values evaluated in order. *)
Definition new_asset (env : Env) (data : json) : outcome dict :=
  let id := JStr (uuid4 env) in
  title ← py_getitem data "title";
  d ← py_get_attr data;
  let description := dict_get d "description" (JStr "") in
  blobUrl ← py_getitem data "blobUrl";
  let created_at := JStr (isoformat (utcnow env)) in
  mret [("id", id); ("title", title); ("description", description);
        ("blobUrl", blobUrl); ("created_at", created_at)].

(** POST /api/assets. [logging.exception] only writes to the log and is left
    out, here and in the other handlers. *)
Definition create_asset (env : Env) (req : HttpRequest)
    : M C B HttpResponse :=
  try_except
    (data ← lift (get_json req);
     missing ← lift (required_missing data);
     if (missing : bool) then
       mret (text_response "title and blobUrl are required" 400)
     else
       asset ← lift (new_asset env data);
       create_item asset;;
       mret (json_response (JObj asset) 201))
    (except_Exception (λ e, mret (error_response e 500))).

(** GET /api/assets/{id} *)
Definition get_asset (req : HttpRequest) : M C B HttpResponse :=
  let asset_id := route_id req in
  try_except
    (asset ← read_item asset_id;
     mret (json_response (JObj asset) 200))
    (except_CosmosResourceNotFoundError
       (mret (text_response "Asset not found" 404))).

(** GET /api/assets *)
Definition list_assets (req : HttpRequest) : M C B HttpResponse :=
  try_except
    (items ← read_all_items;
     mret (json_response (JArr (JObj <$> items)) 200))
    (except_Exception (λ e, mret (error_response e 500))).

(** [asset[key] = data.get(key, asset[key])]: the attribute [data.get] is
    looked up first, then the argument [asset[key]] is evaluated, then the
    call is made and its result stored. *)
Definition merge_field (data : json) (key : string) (asset : dict)
    : outcome dict :=
  d ← py_get_attr data;
  old ← dict_getitem asset key;
  mret (dict_setitem key (dict_get d key old) asset).

(** PUT /api/assets/{id} *)
Definition update_asset (env : Env) (req : HttpRequest)
    : M C B HttpResponse :=
  let asset_id := route_id req in
  try_except
    (data ← lift (get_json req);
     asset ← read_item asset_id;
     asset ← lift (merge_field data "title" asset);
     asset ← lift (merge_field data "description" asset);
     asset ← lift (merge_field data "blobUrl" asset);
     let asset :=
       dict_setitem "updated_at" (JStr (isoformat (utcnow env))) asset in
     replace_item asset_id asset;;
     mret (json_response (JObj asset) 200))
    (except_CosmosResourceNotFoundError
       (mret (text_response "Asset not found" 404))).

(** [asset["blobUrl"].split("/")[-1]] *)
Definition blob_name_of (asset : dict) : outcome string :=
  url ← dict_getitem asset "blobUrl";
  segments ← py_split_slash url;
  list_last segments.

(** DELETE /api/assets/{id} *)
Definition delete_asset (req : HttpRequest) : M C B HttpResponse :=
  let asset_id := route_id req in
  try_except
    (asset ← read_item asset_id;
     blob_name ← lift (blob_name_of asset);
     delete_blob blob_name;;
     delete_item asset_id;;
     mret (empty_response 204))
    (except_CosmosResourceNotFoundError
       (mret (text_response "Asset not found" 404))).

(** POST /api/upload *)
Definition upload_file (env : Env) (req : HttpRequest)
    : M C B HttpResponse :=
  try_except
    (let file_bytes := get_body req in
     if bool_decide (file_bytes = []) then
       mret (text_response "Empty file" 400)
     else
       let filename := uuid4 env +:+ ".bin" in
       upload_blob filename file_bytes
         (default "application/octet-stream" (content_type req));;
       url ← blob_url filename;
       mret (json_response
               (JObj [("filename", JStr filename); ("url", JStr url)]) 201))
    (except_Exception (λ e, mret (error_response e 500))).

End Handlers.

(** ** Finite-map stores *)

(** The Cosmos container as a finite map from the document id, which is also
    the partition key, to the document. [create_item] refuses an id that is
    taken or a document without a textual [id], and [read_item],
    [replace_item] and [delete_item] an id that is not there. A document is
    stored and read back as it was sent: the properties the service adds to
    a stored document for its own use are not part of this instance;
    [service_cosmos] below has them. *)
#[global] Instance gmap_cosmos : CosmosContainer (gmap string dict) := {
  cosmos_create_item doc c :=
    match dict_lookup "id" doc with
    | Some (JStr id) =>
        match c !! id with
        | Some _ => inl CosmosResourceExistsError
        | None => inr (<[id := doc]> c)
        end
    | _ => inl CosmosHttpResponseError
    end;
  cosmos_read_item item c :=
    match c !! item with
    | Some doc => inr doc
    | None => inl CosmosResourceNotFoundError
    end;
  cosmos_read_all_items c := inr (map_to_list c).*2;
  cosmos_replace_item item doc c :=
    match c !! item with
    | Some _ => inr (<[item := doc]> c)
    | None => inl CosmosResourceNotFoundError
    end;
  cosmos_delete_item item c :=
    match c !! item with
    | Some _ => inr (delete item c)
    | None => inl CosmosResourceNotFoundError
    end
}.

(** The blob container as its URL and a finite map from blob names to the
    uploaded bytes with their content type. Deleting a blob that is not there
    raises; an upload with [overwrite=True] always goes through. The URL of a
    blob is the container's URL, a slash and the blob name (the generated
    names need no escaping). *)
Record blob_store : Type := {
  container_url : string;
  objects : gmap string (list Byte.byte * string)
}.

Definition set_objects (o : gmap string (list Byte.byte * string))
    (b : blob_store) : blob_store :=
  {| container_url := container_url b; objects := o |}.

#[global] Instance gmap_blobs : BlobContainer blob_store := {
  blob_delete_blob name b :=
    match objects b !! name with
    | Some _ => inr (set_objects (delete name (objects b)) b)
    | None => inl ResourceNotFoundError
    end;
  blob_upload_blob name data ctype b :=
    inr (set_objects (<[name := (data, ctype)]> (objects b)) b);
  blob_client_url b name := container_url b +:+ "/" +:+ name
}.

Abbreviation world := (World (gmap string dict) blob_store).

(** ** Vocabulary of the statements *)

(** The five-field record [create_asset] builds from an object body. *)
Definition created_record (env : Env) (title description blobUrl : json)
    : dict :=
  [("id", JStr (uuid4 env)); ("title", title); ("description", description);
   ("blobUrl", blobUrl); ("created_at", JStr (isoformat (utcnow env)))].

(** The ISO-8601 extended date-time layout, written as a pattern: four-digit
    year, two-digit month and day, [T], two-digit hour, minute and second,
    and optionally a decimal point with six digits of fraction. *)
Inductive pattern_item : Type :=
  | Digit
  | Lit (c : ascii).

Definition is_digit (c : ascii) : bool :=
  (48 <=? nat_of_ascii c) && (nat_of_ascii c <=? 57).

Fixpoint matches (pat : list pattern_item) (s : string) : bool :=
  match pat, s with
  | [], EmptyString => true
  | Digit :: pat', String c s' => is_digit c && matches pat' s'
  | Lit l :: pat', String c s' => bool_decide (c = l) && matches pat' s'
  | _, _ => false
  end.

Definition iso8601_seconds : list pattern_item :=
  [Digit; Digit; Digit; Digit; Lit "-"; Digit; Digit; Lit "-"; Digit; Digit;
   Lit "T"; Digit; Digit; Lit ":"; Digit; Digit; Lit ":"; Digit; Digit]%char.

Definition iso8601_fraction : list pattern_item :=
  [Lit "."%char; Digit; Digit; Digit; Digit; Digit; Digit].

Definition is_iso8601 (s : string) : bool :=
  matches iso8601_seconds s ||
  matches (iso8601_seconds ++ iso8601_fraction) s.


(** [c in s] for a character. *)
Fixpoint str_mem (c : ascii) (s : string) : bool :=
  match s with
  | EmptyString => false
  | String c' s' => bool_decide (c' = c) || str_mem c s'
  end.

(** [sep.join(segments)] *)
Fixpoint str_join (sep : ascii) (segments : list string) : string :=
  match segments with
  | [] => EmptyString
  | [seg] => seg
  | seg :: segs => seg +:+ String sep (str_join sep segs)
  end.

(** [name] is the final path segment of [url]: it holds no slash, and [url]
    is either [name] alone or some prefix, a slash, and [name]. *)
Definition is_final_segment (name url : string) : Prop :=
  str_mem "/" name = false ∧
  (url = name ∨ ∃ prefix, url = prefix +:+ String "/" name).

(** A stored document has the three fields [update_asset] reads back. *)
Definition has_mutable_fields (doc : dict) : Prop :=
  is_Some (dict_lookup "title" doc) ∧
  is_Some (dict_lookup "description" doc) ∧
  is_Some (dict_lookup "blobUrl" doc).

Definition records_complete (c : gmap string dict) : Prop :=
  ∀ id doc, c !! id = Some doc → has_mutable_fields doc.

(** *** Sample inputs *)

Definition sample_now : datetime :=
  {| year := 2024; month := 3; day := 9;
     hour := 7; minute := 5; second := 1; microsecond := 42 |}.

Definition sample_env : Env :=
  {| uuid4 := "6f1c2b9e-8d3a-4c55-9a47-0e5b7d1f2a30"; utcnow := sample_now |}.

Definition sample_later : Env :=
  {| uuid4 := "b7a4e0d2-1f68-4e0b-8c39-5d2a9f6e4c11";
     utcnow := {| year := 2024; month := 3; day := 9;
                  hour := 8; minute := 0; second := 0; microsecond := 0 |} |}.

Definition sample_url : string :=
  "https://acct.blob.core.windows.net/uploads".

Definition empty_world : world :=
  {| container := ∅;
     blob_container := {| container_url := sample_url; objects := ∅ |};
     calls := [] |}.

Definition json_request (id : string) (data : option json) : HttpRequest :=
  {| route_id := id; get_body := []; parsed_json := data;
     content_type := None |}.

Definition sample_blobUrl : string :=
  "https://acct.blob.core.windows.net/uploads/photo.bin".

Definition sample_body : json :=
  JObj [("title", JStr "Photo"); ("blobUrl", JStr sample_blobUrl);
        ("id", JStr "forged"); ("created_at", JStr "1999-01-01T00:00:00")].

Definition sample_record : dict :=
  created_record sample_env (JStr "Photo") (JStr "") (JStr sample_blobUrl).

(** The world after [sample_body] has been posted to an empty store. *)
Definition world_after_create : world :=
  {| container := <[uuid4 sample_env := sample_record]> ∅;
     blob_container := {| container_url := sample_url; objects := ∅ |};
     calls := [CreateItem sample_record] |}.

Definition sample_update : HttpRequest :=
  json_request (uuid4 sample_env) (Some (JObj [("title", JStr "Renamed")])).

Definition sample_bytes : list Byte.byte := [Byte.x68; Byte.x69].

(** A world where the blob the sample record points at has been uploaded. *)
Definition world_with_blob : world :=
  {| container := <[uuid4 sample_env := sample_record]> ∅;
     blob_container :=
       {| container_url := sample_url;
          objects :=
            <["photo.bin" := (sample_bytes, "application/octet-stream")]> ∅ |};
     calls := [] |}.

Definition sample_delete : HttpRequest :=
  json_request (uuid4 sample_env) None.

Definition upload_request (data : list Byte.byte) : HttpRequest :=
  {| route_id := ""; get_body := data; parsed_json := None;
     content_type := Some "image/png" |}.

(** ** Other clients of the two interfaces *)

(** A Cosmos container opened with a read-only key: reads answer from the
    documents it holds, every write is refused by the service. *)
Record read_only : Type := { snapshot : gmap string dict }.

#[global] Instance read_only_cosmos : CosmosContainer read_only := {
  cosmos_create_item doc c := inl CosmosHttpResponseError;
  cosmos_read_item item c :=
    match snapshot c !! item with
    | Some doc => inr doc
    | None => inl CosmosResourceNotFoundError
    end;
  cosmos_read_all_items c := inr (map_to_list (snapshot c)).*2;
  cosmos_replace_item item doc c := inl CosmosHttpResponseError;
  cosmos_delete_item item c := inl CosmosHttpResponseError
}.

(** A service that cannot be reached: every call raises. *)
Inductive offline : Type := Offline.

#[global] Instance offline_cosmos : CosmosContainer offline := {
  cosmos_create_item doc c := inl CosmosHttpResponseError;
  cosmos_read_item item c := inl CosmosHttpResponseError;
  cosmos_read_all_items c := inl CosmosHttpResponseError;
  cosmos_replace_item item doc c := inl CosmosHttpResponseError;
  cosmos_delete_item item c := inl CosmosHttpResponseError
}.

#[global] Instance offline_blobs : BlobContainer offline := {
  blob_delete_blob name b := inl ServiceRequestError;
  blob_upload_blob name data ctype b := inl ServiceRequestError;
  blob_client_url b name := name
}.

(** ** Histories of invocations *)

(** One invocation of one of the six functions the app registers, with what
    it reads from its environment. *)
Inductive invocation : Type :=
  | CreateAsset (env : Env) (req : HttpRequest)
  | GetAsset (req : HttpRequest)
  | ListAssets (req : HttpRequest)
  | UpdateAsset (env : Env) (req : HttpRequest)
  | DeleteAsset (req : HttpRequest)
  | UploadFile (env : Env) (req : HttpRequest).

Section Histories.
Context {C B : Type} `{!CosmosContainer C} `{!BlobContainer B}.

Definition invoke (i : invocation) : M C B HttpResponse :=
  match i with
  | CreateAsset env req => create_asset env req
  | GetAsset req => get_asset req
  | ListAssets req => list_assets req
  | UpdateAsset env req => update_asset env req
  | DeleteAsset req => delete_asset req
  | UploadFile env req => upload_file env req
  end.

(** The world after a sequence of invocations, whatever each one answered. *)
Fixpoint serve (history : list invocation) (w : World C B) : World C B :=
  match history with
  | [] => w
  | i :: rest => serve rest (invoke i w).2
  end.

(** [w'] is [w] after some more calls, all of which satisfy [allowed]. *)
Definition made_since (allowed : call → bool) (w w' : World C B) : Prop :=
  ∃ made, calls w' = calls w ++ made ∧ Forall (λ c, allowed c = true) made.

End Histories.

Definition is_read (c : call) : bool :=
  match c with
  | ReadItem _ | ReadAllItems => true
  | _ => false
  end.

Definition is_cosmos_call (c : call) : bool :=
  match c with
  | DeleteBlob _ | UploadBlob _ _ _ => false
  | _ => true
  end.

Definition is_blob_call (c : call) : bool := negb (is_cosmos_call c).

(** What every record the API stores looks like: its [id] field is the key
    it is stored under, and it has the other four fields. *)
Definition well_formed_record (id : string) (doc : dict) : Prop :=
  dict_lookup "id" doc = Some (JStr id) ∧
  has_mutable_fields doc ∧
  is_Some (dict_lookup "created_at" doc).

Definition store_ok (c : gmap string dict) : Prop :=
  ∀ id doc, c !! id = Some doc → well_formed_record id doc.

(** *** Sample worlds over the other clients *)

Definition offline_world : World offline offline :=
  {| container := Offline; blob_container := Offline; calls := [] |}.

(** The sample record behind a read-only key, its blob uploaded. *)
Definition read_only_world : World read_only blob_store :=
  {| container :=
       {| snapshot := <[uuid4 sample_env := sample_record]> ∅ |};
     blob_container := blob_container world_with_blob;
     calls := [] |}.

(** ** The Cosmos service and its own properties *)

(** The service keeps five properties of its own in every document it
    stores, and returns them with the document on every read: [_rid] and
    [_self] name the resource, [_etag] changes on every write, [_attachments]
    is a fixed path and [_ts] is the time of the last write. Their values
    are the service's choice. *)
Record system_stamp : Type := {
  stamp_rid : string;
  stamp_self : string;
  stamp_etag : string;
  stamp_ts : Z
}.

Definition system_keys : list string :=
  ["_rid"; "_self"; "_etag"; "_attachments"; "_ts"].

(** The document as the service stores it: the five properties are set,
    over whatever the client sent under those names. *)
Definition with_system_properties (rid self : json) (s : system_stamp)
    (doc : dict) : dict :=
  dict_setitem "_ts" (JInt (stamp_ts s))
    (dict_setitem "_attachments" (JStr "attachments/")
       (dict_setitem "_etag" (JStr (stamp_etag s))
          (dict_setitem "_self" self
             (dict_setitem "_rid" rid doc)))).

(** The container as the service runs it: the stored documents, the stamps
    the service will hand out, and the number of writes made so far. A
    created document gets the resource names of its stamp; a replaced one
    keeps the resource names it has and gets a new [_etag] and [_ts]. *)
Record cosmos_service : Type := {
  documents : gmap string dict;
  stamps : nat → system_stamp;
  writes : nat
}.

#[global] Instance service_cosmos : CosmosContainer cosmos_service := {
  cosmos_create_item doc c :=
    match dict_lookup "id" doc with
    | Some (JStr id) =>
        match documents c !! id with
        | Some _ => inl CosmosResourceExistsError
        | None =>
            let s := stamps c (writes c) in
            inr {| documents :=
                     <[id := with_system_properties (JStr (stamp_rid s))
                               (JStr (stamp_self s)) s doc]> (documents c);
                   stamps := stamps c;
                   writes := S (writes c) |}
        end
    | _ => inl CosmosHttpResponseError
    end;
  cosmos_read_item item c :=
    match documents c !! item with
    | Some doc => inr doc
    | None => inl CosmosResourceNotFoundError
    end;
  cosmos_read_all_items c := inr (map_to_list (documents c)).*2;
  cosmos_replace_item item doc c :=
    match documents c !! item with
    | Some old =>
        let s := stamps c (writes c) in
        inr {| documents :=
                 <[item := with_system_properties
                             (dict_get old "_rid" JNull)
                             (dict_get old "_self" JNull) s doc]>
                   (documents c);
               stamps := stamps c;
               writes := S (writes c) |}
    | None => inl CosmosResourceNotFoundError
    end;
  cosmos_delete_item item c :=
    match documents c !! item with
    | Some _ =>
        inr {| documents := delete item (documents c);
               stamps := stamps c;
               writes := writes c |}
    | None => inl CosmosResourceNotFoundError
    end
}.

Abbreviation service_world := (World cosmos_service blob_store).

(** *** A sample service *)

Definition sample_stamps (n : nat) : system_stamp :=
  {| stamp_rid := "Xk9AAL" +:+ zero_pad 2 n;
     stamp_self := "dbs/Xk9A/colls/AAL/docs/" +:+ zero_pad 2 n;
     stamp_etag := "00000000-0000-0000-0000-0000000000" +:+ zero_pad 2 n;
     stamp_ts := 1709967901 + Z.of_nat n |}.

Definition empty_service_world : service_world :=
  {| container :=
       {| documents := ∅; stamps := sample_stamps; writes := 0 |};
     blob_container := {| container_url := sample_url; objects := ∅ |};
     calls := [] |}.

(** The sample record as the sample service stores it on its first write. *)
Definition sample_stored : dict :=
  sample_record ++
  [("_rid", JStr "Xk9AAL00"); ("_self", JStr "dbs/Xk9A/colls/AAL/docs/00");
   ("_etag", JStr "00000000-0000-0000-0000-000000000000");
   ("_attachments", JStr "attachments/"); ("_ts", JInt 1709967901)].

(** The service world after [sample_body] has been posted to it. *)
Definition service_world_after_create : service_world :=
  {| container :=
       {| documents := <[uuid4 sample_env := sample_stored]> ∅;
          stamps := sample_stamps;
          writes := 1 |};
     blob_container := {| container_url := sample_url; objects := ∅ |};
     calls := [CreateItem sample_record] |}.

(** * Properties *)

(** ** Python dicts *)

Lemma dict_contains_lookup (key : string) (d : dict) :
  dict_contains key d = bool_decide (is_Some (dict_lookup key d)).
Proof.
  induction d as [|[k v] d IH]; simpl.
  - done.
  - case_decide; [|done]. symmetry. by apply bool_decide_eq_true.
Qed.

Lemma dict_contains_false (key : string) (d : dict) :
  dict_contains key d = false ↔ dict_lookup key d = None.
Proof.
  rewrite dict_contains_lookup, bool_decide_eq_false.
  by rewrite eq_None_not_Some.
Qed.

Lemma dict_contains_true (key : string) (d : dict) :
  dict_contains key d = true ↔ is_Some (dict_lookup key d).
Proof. by rewrite dict_contains_lookup, bool_decide_eq_true. Qed.

Lemma dict_lookup_setitem_eq (key : string) (v : json) (d : dict) :
  dict_lookup key (dict_setitem key v d) = Some v.
Proof.
  induction d as [|[k x] d IH]; simpl.
  - by rewrite decide_True.
  - case_decide; simpl; [by rewrite decide_True|by rewrite decide_False].
Qed.

Lemma dict_lookup_setitem_ne (key key' : string) (v : json) (d : dict) :
  key ≠ key' →
  dict_lookup key' (dict_setitem key v d) = dict_lookup key' d.
Proof.
  intros Hne. induction d as [|[k x] d IH]; simpl.
  - by rewrite decide_False.
  - case_decide; simpl; [subst; by rewrite !decide_False|].
    by rewrite IH.
Qed.

Lemma dict_keys_setitem (key : string) (v : json) (d : dict) :
  dict_keys (dict_setitem key v d) =
  if dict_contains key d then dict_keys d else dict_keys d ++ [key].
Proof.
  unfold dict_keys. induction d as [|[k x] d IH]; csimpl; [done|].
  case_decide; csimpl; [done|]. rewrite IH. by destruct (dict_contains key d).
Qed.

(** ** Running the handlers *)

Lemma required_missing_obj (d : dict) :
  required_missing (JObj d) =
  Return (negb (dict_contains "title" d) || negb (dict_contains "blobUrl" d)).
Proof.
  unfold required_missing. simpl.
  by destruct (dict_contains "title" d), (dict_contains "blobUrl" d).
Qed.

Lemma new_asset_obj (env : Env) (d : dict) (title blobUrl : json) :
  dict_lookup "title" d = Some title →
  dict_lookup "blobUrl" d = Some blobUrl →
  new_asset env (JObj d) =
  Return (created_record env title (dict_get d "description" (JStr "")) blobUrl).
Proof.
  intros Ht Hb. unfold new_asset. simpl. unfold dict_getitem.
  by rewrite Ht, Hb.
Qed.

(** Whenever the dict display evaluates, it is the five-field record, and
    the body was an object holding both required keys. *)
Lemma new_asset_inv (env : Env) (data : json) (asset : dict) :
  new_asset env data = Return asset →
  ∃ d title blobUrl,
    data = JObj d ∧
    dict_lookup "title" d = Some title ∧
    dict_lookup "blobUrl" d = Some blobUrl ∧
    asset =
      created_record env title (dict_get d "description" (JStr "")) blobUrl.
Proof.
  unfold new_asset. destruct data as [| | | | |?|d]; simpl; try discriminate.
  unfold dict_getitem.
  destruct (dict_lookup "title" d) as [title|] eqn:Ht; simpl; [|discriminate].
  destruct (dict_lookup "blobUrl" d) as [blobUrl|] eqn:Hb; simpl;
    [|discriminate].
  intros [= <-]. by exists d, title, blobUrl.
Qed.

(** Unfolds the statement combinators down to matches on store results. *)
Ltac run :=
  unfold try_except, except_Exception, except_CosmosResourceNotFoundError,
    create_item, read_item, read_all_items, replace_item, delete_item,
    delete_blob, upload_blob, blob_url, lift, mbind, M_bind, mret, M_ret,
    set_container, set_blob_container, log;
  simpl.

Lemma create_asset_stores (env : Env) (req : HttpRequest) (w : world)
    (d : dict) (title blobUrl : json) :
  parsed_json req = Some (JObj d) →
  dict_lookup "title" d = Some title →
  dict_lookup "blobUrl" d = Some blobUrl →
  container w !! uuid4 env = None →
  let asset :=
    created_record env title (dict_get d "description" (JStr "")) blobUrl in
  create_asset env req w =
    (Return (json_response (JObj asset) 201),
     {| container := <[uuid4 env := asset]> (container w);
        blob_container := blob_container w;
        calls := calls w ++ [CreateItem asset] |}).
Proof.
  intros Hjson Ht Hb Hfresh asset.
  unfold create_asset, get_json. run. rewrite Hjson, required_missing_obj.
  assert (dict_contains "title" d = true) as ->
    by (apply dict_contains_true; eauto).
  assert (dict_contains "blobUrl" d = true) as ->
    by (apply dict_contains_true; eauto).
  simpl. rewrite (new_asset_obj env d title blobUrl Ht Hb).
  fold asset. simpl. by rewrite Hfresh.
Qed.

(** A created asset status comes with the record that was stored under the
    generated id. *)
Lemma create_asset_201_inv (env : Env) (req : HttpRequest) (w w' : world)
    (resp : HttpResponse) :
  create_asset env req w = (Return resp, w') →
  status_code resp = 201%Z →
  ∃ asset,
    resp = json_response (JObj asset) 201 ∧
    dict_lookup "id" asset = Some (JStr (uuid4 env)) ∧
    container w !! uuid4 env = None ∧
    w' = {| container := <[uuid4 env := asset]> (container w);
            blob_container := blob_container w;
            calls := calls w ++ [CreateItem asset] |}.
Proof.
  unfold create_asset, get_json. run.
  destruct (parsed_json req) as [data|]; simpl;
    [|by intros [= <- <-] [=]].
  destruct (required_missing data) as [[]|e]; simpl;
    [by intros [= <- <-] [=]| |by intros [= <- <-] [=]].
  destruct (new_asset env data) as [asset|e] eqn:Hnew; simpl;
    [|by intros [= <- <-] [=]].
  apply new_asset_inv in Hnew as (d & title & blobUrl & -> & _ & _ & ->).
  simpl. destruct (container w !! uuid4 env) eqn:Hfresh; simpl;
    [by intros [= <- <-] [=]|].
  intros [= <- <-] _. by eexists.
Qed.

(** ** The timestamp text *)

Lemma is_digit_digit (n : nat) : is_digit (digit n) = true.
Proof.
  unfold digit. pose proof (Nat.mod_upper_bound n 10 ltac:(lia)) as Hlt.
  destruct (n mod 10) as [|[|[|[|[|[|[|[|[|[|k]]]]]]]]]]; try reflexivity.
  lia.
Qed.

Lemma isoformat_is_iso8601 (dt : datetime) : is_iso8601 (isoformat dt) = true.
Proof.
  unfold is_iso8601, isoformat, iso8601_seconds, iso8601_fraction.
  destruct (decide (microsecond dt = 0));
    cbv [zero_pad String.append matches app];
    rewrite !is_digit_digit; reflexivity.
Qed.

(** ** Create *)

(** C4: a create request whose JSON object lacks the key [title] or lacks
    the key [blobUrl] is answered with HTTP 400, whatever else the object
    holds, and nothing is sent to either store. *)
Theorem create_missing_field_400 (env : Env) (req : HttpRequest) (w : world)
    (d : dict) :
  parsed_json req = Some (JObj d) →
  dict_lookup "title" d = None ∨ dict_lookup "blobUrl" d = None →
  create_asset env req w =
    (Return (text_response "title and blobUrl are required" 400), w).
Proof.
  intros Hjson Hmissing.
  unfold create_asset, get_json. run. rewrite Hjson, required_missing_obj.
  assert (negb (dict_contains "title" d) || negb (dict_contains "blobUrl" d)
          = true) as ->; [|done].
  destruct Hmissing as [H|H]; apply dict_contains_false in H; rewrite H;
    [done|apply orb_true_r].
Qed.

Lemma create_missing_field_400_witness :
  create_asset sample_env
    (json_request "" (Some (JObj [("blobUrl", JStr sample_blobUrl);
                                  ("description", JStr "no title")])))
    empty_world =
  (Return (text_response "title and blobUrl are required" 400), empty_world).
Proof.
  apply (create_missing_field_400 sample_env _ empty_world
           [("blobUrl", JStr sample_blobUrl);
            ("description", JStr "no title")]).
  - reflexivity.
  - left. reflexivity.
Defined.

(** C6, as the code has it: a create request whose JSON object holds
    [title] and [blobUrl] is answered with HTTP 201 and the record that was
    stored, provided the UUID the server draws for it is not the id of a
    stored record already, which the code does not check: the [id] of the
    record is that UUID, its [created_at] is the ISO-8601 text of the
    current UTC time, its [description] is the empty string when the body
    has none, and it has no [updated_at] field. *)
Theorem create_returns_new_record (env : Env) (req : HttpRequest) (w : world)
    (d : dict) (title blobUrl : json) :
  parsed_json req = Some (JObj d) →
  dict_lookup "title" d = Some title →
  dict_lookup "blobUrl" d = Some blobUrl →
  container w !! uuid4 env = None →
  ∃ description,
    let asset := created_record env title description blobUrl in
    create_asset env req w =
      (Return (json_response (JObj asset) 201),
       {| container := <[uuid4 env := asset]> (container w);
          blob_container := blob_container w;
          calls := calls w ++ [CreateItem asset] |}) ∧
    description = default (JStr "") (dict_lookup "description" d) ∧
    dict_lookup "id" asset = Some (JStr (uuid4 env)) ∧
    dict_lookup "created_at" asset = Some (JStr (isoformat (utcnow env))) ∧
    is_iso8601 (isoformat (utcnow env)) = true ∧
    dict_lookup "updated_at" asset = None.
Proof.
  intros Hjson Ht Hb Hfresh.
  exists (dict_get d "description" (JStr "")). simpl. split_and!.
  - by apply create_asset_stores.
  - unfold dict_get. by destruct (dict_lookup "description" d).
  - done.
  - done.
  - apply isoformat_is_iso8601.
  - done.
Qed.

Lemma create_returns_new_record_witness :
  ∃ description,
    let asset :=
      created_record sample_env (JStr "Photo") description
        (JStr sample_blobUrl) in
    create_asset sample_env (json_request "" (Some sample_body)) empty_world =
      (Return (json_response (JObj asset) 201),
       {| container := <[uuid4 sample_env := asset]> (container empty_world);
          blob_container := blob_container empty_world;
          calls := calls empty_world ++ [CreateItem asset] |}) ∧
    description = JStr "" ∧
    dict_lookup "id" asset = Some (JStr (uuid4 sample_env)) ∧
    dict_lookup "created_at" asset =
      Some (JStr (isoformat (utcnow sample_env))) ∧
    is_iso8601 (isoformat (utcnow sample_env)) = true ∧
    dict_lookup "updated_at" asset = None.
Proof.
  apply (create_returns_new_record sample_env
           (json_request "" (Some sample_body)) empty_world
           [("title", JStr "Photo"); ("blobUrl", JStr sample_blobUrl);
            ("id", JStr "forged");
            ("created_at", JStr "1999-01-01T00:00:00")]
           (JStr "Photo") (JStr sample_blobUrl)); reflexivity.
Defined.

(** A create request with [title] and [blobUrl] whose drawn UUID is the id
    of a stored record: the store refuses the document, the handler answers
    500 rather than 201, and nothing is stored. *)
Lemma create_taken_uuid_not_201 :
  dict_lookup "title"
    [("title", JStr "Other"); ("blobUrl", JStr sample_blobUrl)] =
    Some (JStr "Other") ∧
  dict_lookup "blobUrl"
    [("title", JStr "Other"); ("blobUrl", JStr sample_blobUrl)] =
    Some (JStr sample_blobUrl) ∧
  container world_after_create !! uuid4 sample_env = Some sample_record ∧
  ∃ resp,
    create_asset sample_env
      (json_request ""
         (Some (JObj [("title", JStr "Other");
                      ("blobUrl", JStr sample_blobUrl)])))
      world_after_create =
      (Return resp,
       log (CreateItem
              (created_record sample_env (JStr "Other") (JStr "")
                 (JStr sample_blobUrl)))
         world_after_create) ∧
    resp = error_response (CosmosError CosmosResourceExistsError) 500 ∧
    status_code resp ≠ 201%Z.
Proof.
  split_and!; [reflexivity..|]. eexists. split_and!; [reflexivity..|].
  discriminate.
Qed.


(** ** Get after create *)

(** Posting [sample_body] to the empty world gives [world_after_create]. *)
Example create_sample :
  create_asset sample_env (json_request "" (Some sample_body)) empty_world =
  (Return (json_response (JObj sample_record) 201), world_after_create).
Proof. reflexivity. Qed.

(** What the service adds to a document it stores for the first time. *)
Lemma with_system_properties_created (env : Env)
    (title description blobUrl rid self : json) (s : system_stamp) :
  with_system_properties rid self s
    (created_record env title description blobUrl) =
  created_record env title description blobUrl ++
  [("_rid", rid); ("_self", self); ("_etag", JStr (stamp_etag s));
   ("_attachments", JStr "attachments/"); ("_ts", JInt (stamp_ts s))].
Proof. reflexivity. Qed.

Lemma with_system_properties_other (rid self : json) (s : system_stamp)
    (doc : dict) (key : string) :
  key ∉ system_keys →
  dict_lookup key (with_system_properties rid self s doc) =
  dict_lookup key doc.
Proof.
  unfold system_keys. rewrite !not_elem_of_cons.
  intros (? & ? & ? & ? & ? & _). unfold with_system_properties.
  by rewrite !dict_lookup_setitem_ne.
Qed.

(** A 201 from [create_asset] on the service: the record returned, and the
    document the service then holds under the generated id. *)
Lemma create_asset_201_service (env : Env) (req : HttpRequest)
    (w w' : service_world) (resp : HttpResponse) :
  create_asset env req w = (Return resp, w') →
  status_code resp = 201%Z →
  ∃ title description blobUrl,
    let asset := created_record env title description blobUrl in
    let s := stamps (container w) (writes (container w)) in
    resp = json_response (JObj asset) 201 ∧
    documents (container w) !! uuid4 env = None ∧
    w' = {| container :=
              {| documents :=
                   <[uuid4 env :=
                       with_system_properties (JStr (stamp_rid s))
                         (JStr (stamp_self s)) s asset]>
                     (documents (container w));
                 stamps := stamps (container w);
                 writes := S (writes (container w)) |};
            blob_container := blob_container w;
            calls := calls w ++ [CreateItem asset] |}.
Proof.
  unfold create_asset, get_json. run.
  destruct (parsed_json req) as [data|]; simpl;
    [|by intros [= <- <-] [=]].
  destruct (required_missing data) as [[]|e]; simpl;
    [by intros [= <- <-] [=]| |by intros [= <- <-] [=]].
  destruct (new_asset env data) as [asset|e] eqn:Hnew; simpl;
    [|by intros [= <- <-] [=]].
  apply new_asset_inv in Hnew as (d & title & blobUrl & -> & _ & _ & ->).
  simpl. destruct (documents (container w) !! uuid4 env) eqn:Hfresh; simpl;
    [by intros [= <- <-] [=]|].
  intros [= <- <-] _. by eexists _, _, _.
Qed.

(** C1, as the code has it: when [create_asset] answers 201, a get-by-id
    with the generated id run right after it answers 200 with the document
    as the store returns it, which [get_asset] passes on whole: every field
    of the record create returned, in the same order and with the same
    value, followed by the five properties the service maintains itself. *)
Theorem get_after_create (env : Env) (req : HttpRequest)
    (w w' : service_world) (resp : HttpResponse) :
  create_asset env req w = (Return resp, w') →
  status_code resp = 201%Z →
  ∃ asset id rid self etag ts,
    let stored :=
      asset ++ [("_rid", JStr rid); ("_self", JStr self);
                ("_etag", JStr etag); ("_attachments", JStr "attachments/");
                ("_ts", JInt ts)] in
    resp = json_response (JObj asset) 201 ∧
    dict_lookup "id" asset = Some (JStr id) ∧
    dict_keys asset =
      ["id"; "title"; "description"; "blobUrl"; "created_at"] ∧
    (∀ key, key ∉ system_keys →
       dict_lookup key stored = dict_lookup key asset) ∧
    ∀ req', route_id req' = id →
      get_asset req' w' =
        (Return (json_response (JObj stored) 200), log (ReadItem id) w').
Proof.
  intros Hcreate Hstatus.
  destruct (create_asset_201_service env req w w' resp Hcreate Hstatus)
    as (title & description & blobUrl & -> & Hfresh & ->).
  set (s := stamps (container w) (writes (container w))).
  exists (created_record env title description blobUrl), (uuid4 env),
    (stamp_rid s), (stamp_self s), (stamp_etag s), (stamp_ts s).
  intros stored.
  assert (stored =
          with_system_properties (JStr (stamp_rid s)) (JStr (stamp_self s)) s
            (created_record env title description blobUrl)) as Hstored
    by reflexivity.
  split_and!; [done..| |].
  - intros key. rewrite Hstored. apply with_system_properties_other.
  - intros req' Hroute. unfold get_asset. rewrite Hroute, Hstored. run.
    by rewrite lookup_insert_eq.
Qed.

Lemma get_after_create_witness :
  ∃ asset id rid self etag ts,
    let stored :=
      asset ++ [("_rid", JStr rid); ("_self", JStr self);
                ("_etag", JStr etag); ("_attachments", JStr "attachments/");
                ("_ts", JInt ts)] in
    json_response (JObj sample_record) 201 = json_response (JObj asset) 201 ∧
    dict_lookup "id" asset = Some (JStr id) ∧
    dict_keys asset =
      ["id"; "title"; "description"; "blobUrl"; "created_at"] ∧
    (∀ key, key ∉ system_keys →
       dict_lookup key stored = dict_lookup key asset) ∧
    ∀ req', route_id req' = id →
      get_asset req' service_world_after_create =
        (Return (json_response (JObj stored) 200),
         log (ReadItem id) service_world_after_create).
Proof.
  apply (get_after_create sample_env (json_request "" (Some sample_body))
           empty_service_world service_world_after_create
           (json_response (JObj sample_record) 201)); reflexivity.
Defined.

(** The record create returns and the body of the get that follows it, on
    the sample service: the second has five fields the first has not. *)
Lemma get_after_create_field_drift :
  create_asset sample_env (json_request "" (Some sample_body))
    empty_service_world =
    (Return (json_response (JObj sample_record) 201),
     service_world_after_create) ∧
  get_asset (json_request (uuid4 sample_env) None)
    service_world_after_create =
    (Return (json_response (JObj sample_stored) 200),
     log (ReadItem (uuid4 sample_env)) service_world_after_create) ∧
  json_response (JObj sample_stored) 200 ≠
    json_response (JObj sample_record) 200 ∧
  dict_lookup "_etag" sample_record = None ∧
  dict_lookup "_etag" sample_stored =
    Some (JStr "00000000-0000-0000-0000-000000000000").
Proof.
  split_and!; [reflexivity|reflexivity|discriminate|reflexivity..].
Qed.

(** ** Update *)

Lemma merge_field_obj (d : dict) (key : string) (asset : dict) (old : json) :
  dict_lookup key asset = Some old →
  merge_field (JObj d) key asset =
  Return (dict_setitem key (dict_get d key old) asset).
Proof. intros Hold. unfold merge_field, dict_getitem. simpl. by rewrite Hold. Qed.

Lemma dict_get_lookup (d : dict) (key : string) (old : json) :
  Some (dict_get d key old) =
  match dict_lookup key d with Some v => Some v | None => Some old end.
Proof. unfold dict_get. by destruct (dict_lookup key d). Qed.

Ltac dict_simpl :=
  repeat (rewrite dict_lookup_setitem_eq
          || rewrite dict_lookup_setitem_ne by (done || congruence)).

(** C3: an update of an existing record with a JSON object body answers 200
    with the merged record, which is also what is written back under the
    same id: each of [title], [description], [blobUrl] holds the body's value
    when the body has that key and the stored value otherwise, [updated_at]
    is the ISO text of the current UTC time, and every other key, [id] and
    [created_at] among them, holds what it held; no key is lost. *)
Theorem update_merges_fields (env : Env) (req : HttpRequest) (w : world)
    (d asset : dict) :
  parsed_json req = Some (JObj d) →
  container w !! route_id req = Some asset →
  is_Some (dict_lookup "title" asset) →
  is_Some (dict_lookup "description" asset) →
  is_Some (dict_lookup "blobUrl" asset) →
  ∃ merged,
    update_asset env req w =
      (Return (json_response (JObj merged) 200),
       {| container := <[route_id req := merged]> (container w);
          blob_container := blob_container w;
          calls := calls w ++ [ReadItem (route_id req);
                               ReplaceItem (route_id req) merged] |}) ∧
    (∀ key, key ∈ ["title"; "description"; "blobUrl"] →
       dict_lookup key merged =
       match dict_lookup key d with
       | Some v => Some v
       | None => dict_lookup key asset
       end) ∧
    dict_lookup "updated_at" merged = Some (JStr (isoformat (utcnow env))) ∧
    (∀ key, key ∉ ["title"; "description"; "blobUrl"; "updated_at"] →
       dict_lookup key merged = dict_lookup key asset) ∧
    dict_lookup "id" merged = dict_lookup "id" asset ∧
    dict_lookup "created_at" merged = dict_lookup "created_at" asset ∧
    dict_keys merged =
      if dict_contains "updated_at" asset then dict_keys asset
      else dict_keys asset ++ ["updated_at"].
Proof.
  intros Hjson Hstored [title Ht] [description Hd] [blobUrl Hb].
  eexists. split_and!.
  - unfold update_asset, get_json. run. rewrite Hjson. simpl.
    rewrite Hstored. simpl.
    rewrite (merge_field_obj d "title" asset title Ht). simpl.
    rewrite (merge_field_obj d "description" _ description)
      by (by dict_simpl).
    simpl.
    rewrite (merge_field_obj d "blobUrl" _ blobUrl) by (by dict_simpl).
    simpl. rewrite Hstored. simpl. by rewrite <- app_assoc.
  - intros key Hkey. rewrite !elem_of_cons in Hkey.
    destruct Hkey as [->|[->|[->|Hkey]]]; [| | |by apply elem_of_nil in Hkey];
      dict_simpl; rewrite dict_get_lookup;
      by destruct (dict_lookup _ d).
  - by dict_simpl.
  - intros key Hkey. rewrite !not_elem_of_cons in Hkey.
    destruct Hkey as (? & ? & ? & ? & _). by dict_simpl.
  - by dict_simpl.
  - by dict_simpl.
  - rewrite dict_keys_setitem.
    assert (∀ k v a, is_Some (dict_lookup k a) →
              dict_keys (dict_setitem k v a) = dict_keys a) as Hkeys.
    { intros k v a Hk. rewrite dict_keys_setitem.
      apply dict_contains_true in Hk. by rewrite Hk. }
    assert (∀ k k' v a, k ≠ k' →
              dict_contains k' (dict_setitem k v a) = dict_contains k' a)
      as Hcontains.
    { intros k k' v a Hne. rewrite !dict_contains_lookup.
      by rewrite dict_lookup_setitem_ne. }
    rewrite !Hcontains by done.
    rewrite !Hkeys; [done|eauto|dict_simpl; eauto|dict_simpl; eauto].
Qed.

Lemma update_merges_fields_witness :
  ∃ merged,
    (update_asset sample_later sample_update world_after_create).1 =
      Return (json_response (JObj merged) 200) ∧
    dict_lookup "title" merged = Some (JStr "Renamed") ∧
    dict_lookup "blobUrl" merged = Some (JStr sample_blobUrl) ∧
    dict_lookup "updated_at" merged = Some (JStr "2024-03-09T08:00:00") ∧
    dict_lookup "id" merged = Some (JStr (uuid4 sample_env)).
Proof.
  destruct (update_merges_fields sample_later sample_update
              world_after_create [("title", JStr "Renamed")] sample_record)
    as (merged & Hrun & Hfields & Hstamp & _ & Hid & _);
    [reflexivity|reflexivity|eexists; reflexivity..|].
  exists merged. rewrite Hrun. split_and!.
  - reflexivity.
  - apply (Hfields "title"). apply list_elem_of_here.
  - apply (Hfields "blobUrl"). do 2 apply list_elem_of_further.
    apply list_elem_of_here.
  - apply Hstamp.
  - apply Hid.
Defined.

(** C7: an update whose id names no record writes nothing: the handler
    either makes no store call at all or only the read that misses, and both
    stores are as before. When its body parses as JSON, whatever the value,
    the answer is HTTP 404. *)
Theorem update_missing_404 (env : Env) (req : HttpRequest) (w : world) :
  container w !! route_id req = None →
  (∀ data, parsed_json req = Some data →
     update_asset env req w =
       (Return (text_response "Asset not found" 404),
        log (ReadItem (route_id req)) w)) ∧
  ((update_asset env req w).2 = w ∨
   (update_asset env req w).2 = log (ReadItem (route_id req)) w) ∧
  container (update_asset env req w).2 = container w ∧
  blob_container (update_asset env req w).2 = blob_container w.
Proof.
  intros Hmissing. unfold update_asset, get_json. run.
  destruct (parsed_json req) as [data|]; simpl.
  - rewrite Hmissing. simpl. split_and!; [|by right|done..].
    by intros ? [= <-].
  - split_and!; [done|by left|done..].
Qed.

Lemma update_missing_404_witness :
  update_asset sample_later sample_update empty_world =
    (Return (text_response "Asset not found" 404),
     log (ReadItem (uuid4 sample_env)) empty_world) ∧
  container (update_asset sample_later sample_update empty_world).2 = ∅.
Proof.
  destruct (update_missing_404 sample_later sample_update empty_world)
    as (H404 & _ & Hstore & _); [reflexivity|].
  split; [by apply (H404 (JObj [("title", JStr "Renamed")]))|apply Hstore].
Defined.

(** ** Bodies that are not JSON objects *)

(** C5, as the code has it: a body that is not valid JSON is not answered
    with 400. [create_asset] takes the parse error in its generic clause and
    answers 500 with the error text; [update_asset] has no clause for it and
    the error leaves the handler. Neither makes a store call. *)
Theorem invalid_json_body (env : Env) (req : HttpRequest) (w : world) :
  parsed_json req = None →
  create_asset env req w = (Return (error_response ValueError 500), w) ∧
  update_asset env req w = (Raise ValueError, w).
Proof.
  intros Hjson. unfold create_asset, update_asset, get_json. run.
  by rewrite Hjson.
Qed.

Lemma invalid_json_body_witness :
  create_asset sample_env (json_request "" None) empty_world =
    (Return (error_response ValueError 500), empty_world) ∧
  update_asset sample_env (json_request "" None) empty_world =
    (Raise ValueError, empty_world).
Proof. apply (invalid_json_body sample_env _ empty_world). reflexivity. Defined.

(** The request of C5's example, a body that is not valid JSON, sent to
    create: the answer exists and its status is 500, not 400. *)
Lemma invalid_json_create_not_400 :
  ∃ resp,
    (create_asset sample_env (json_request "" None) empty_world).1 =
      Return resp ∧
    status_code resp = 500%Z ∧ status_code resp ≠ 400%Z.
Proof. eexists. split; [reflexivity|]. split; [reflexivity|discriminate]. Qed.

(** A body that is valid JSON but a scalar ([null], a boolean, a number)
    cannot be searched for a key: create answers 500. *)
Lemma create_scalar_body_500 (env : Env) (req : HttpRequest) (w : world)
    (data : json) :
  parsed_json req = Some data →
  match data with
  | JNull | JBool _ | JInt _ | JFloat _ => True
  | _ => False
  end →
  create_asset env req w = (Return (error_response TypeError 500), w).
Proof.
  intros Hjson Hscalar. unfold create_asset, get_json. run. rewrite Hjson.
  by destruct data.
Qed.

(** A list or a text that merely mentions both names passes the presence
    test and fails at the first subscript: create answers 500. *)
Example create_list_body_500 :
  create_asset sample_env
    (json_request "" (Some (JArr [JStr "title"; JStr "blobUrl"])))
    empty_world =
  (Return (error_response TypeError 500), empty_world).
Proof. reflexivity. Qed.

(** An update with a body that is JSON but not an object, on a record that
    exists: [data.get] raises and no clause takes it. *)
Lemma update_non_object_body (env : Env) (req : HttpRequest) (w : world)
    (data : json) (asset : dict) :
  parsed_json req = Some data →
  (∀ d, data ≠ JObj d) →
  container w !! route_id req = Some asset →
  update_asset env req w =
    (Raise AttributeError, log (ReadItem (route_id req)) w).
Proof.
  intros Hjson Hdata Hstored. unfold update_asset, get_json. run.
  rewrite Hjson. simpl. rewrite Hstored. simpl.
  destruct data; try done. by destruct (Hdata fields).
Qed.

(** ** Splitting a URL *)

Lemma str_split_nonempty (sep : ascii) (s : string) : str_split sep s ≠ [].
Proof.
  destruct s as [|c s]; simpl; [done|].
  case_decide; [done|]. by destruct (str_split sep s).
Qed.

Lemma str_split_no_sep (sep : ascii) (s : string) :
  str_mem sep s = false → str_split sep s = [s].
Proof.
  induction s as [|c s IH]; simpl; [done|].
  intros [Hc Hs]%orb_false_elim. apply bool_decide_eq_false in Hc.
  rewrite decide_False by done. by rewrite IH.
Qed.

Lemma append_cons (c : ascii) (s t : string) :
  String c s +:+ t = String c (s +:+ t).
Proof. reflexivity. Qed.

Lemma str_split_app (sep : ascii) (prefix rest : string) :
  str_split sep (prefix +:+ String sep rest) =
  str_split sep prefix ++ str_split sep rest.
Proof.
  induction prefix as [|c prefix IH].
  - change (str_split sep (String sep rest) = [""] ++ str_split sep rest).
    simpl. by case_decide.
  - rewrite append_cons. simpl. rewrite IH. case_decide; [done|].
    pose proof (str_split_nonempty sep prefix).
    by destruct (str_split sep prefix).
Qed.

Lemma str_split_segments (sep : ascii) (s : string) :
  Forall (λ seg, str_mem sep seg = false) (str_split sep s).
Proof.
  induction s as [|c s IH]; simpl; [by repeat constructor|].
  case_decide as Hc; [by constructor|].
  destruct (str_split sep s) as [|seg segs].
  { repeat constructor. simpl. by rewrite bool_decide_eq_false_2. }
  inversion IH as [|? ? Hseg Hsegs]; subst. constructor; [|done].
  simpl. rewrite Hseg. by rewrite bool_decide_eq_false_2.
Qed.

(** Splitting loses nothing: joining the segments gives the text back. *)
Lemma str_join_split (sep : ascii) (s : string) :
  str_join sep (str_split sep s) = s.
Proof.
  induction s as [|c s IH]; simpl; [done|].
  case_decide as Hc.
  - subst c. pose proof (str_split_nonempty sep s).
    destruct (str_split sep s); [done|]. simpl in *. by rewrite IH.
  - destruct (str_split sep s) as [|seg [|seg' segs]]; simpl in *;
      by rewrite <- IH.
Qed.

(** The code's [split("/")[-1]] is the final path segment, and the only
    one. *)
Lemma last_split_final_segment (name url : string) :
  is_final_segment name url →
  last (str_split "/" url) = Some name.
Proof.
  intros [Hname [->|[prefix ->]]].
  - by rewrite str_split_no_sep.
  - rewrite str_split_app, (str_split_no_sep _ name) by done.
    by rewrite last_snoc.
Qed.

Lemma final_segment_exists (url : string) :
  ∃ name, is_final_segment name url.
Proof.
  pose proof (str_join_split "/" url) as Hjoin.
  pose proof (str_split_segments "/" url) as Hsegs.
  pose proof (str_split_nonempty "/" url) as Hne.
  revert Hjoin Hsegs Hne. generalize (str_split "/" url) as segs.
  intros segs. revert url.
  induction segs as [|seg segs IH]; intros url Hjoin Hsegs Hne; [done|].
  inversion Hsegs as [|? ? Hseg Hrest]; subst.
  destruct segs as [|seg' segs].
  - exists seg. split; [done|by left].
  - destruct (IH (str_join "/" (seg' :: segs)) eq_refl Hrest ltac:(done))
      as (name & Hname & Hshape).
    exists name. split; [done|]. right.
    change (str_join "/" (seg :: seg' :: segs))
      with (seg +:+ String "/"%char (str_join "/" (seg' :: segs))).
    destruct Hshape as [->|[prefix ->]]; [by exists seg|].
    exists (seg +:+ String "/"%char prefix).
    clear. induction seg as [|c seg IHseg]; [done|].
    rewrite !append_cons. by rewrite IHseg.
Qed.

Lemma blob_name_of_final_segment (asset : dict) (name url : string) :
  dict_lookup "blobUrl" asset = Some (JStr url) →
  is_final_segment name url →
  blob_name_of asset = Return name.
Proof.
  intros Hurl Hname. unfold blob_name_of, dict_getitem, list_last.
  rewrite Hurl. simpl. by rewrite (last_split_final_segment name url).
Qed.

(** ** Delete *)

(** C2, as the code has it: when the id names a record whose [blobUrl] is a
    text and the blob named by its final path segment is in the Blob Store,
    [delete_asset] reads the record, deletes that blob, then deletes the
    record, in this order, and answers 204 with an empty body. When the id
    names no record it answers 404 after the read that misses, and both
    stores are as before. *)
Theorem delete_removes_blob_then_record (req : HttpRequest) (w : world) :
  (∀ asset url name,
     container w !! route_id req = Some asset →
     dict_lookup "blobUrl" asset = Some (JStr url) →
     is_final_segment name url →
     is_Some (objects (blob_container w) !! name) →
     delete_asset req w =
       (Return (empty_response 204),
        {| container := delete (route_id req) (container w);
           blob_container :=
             set_objects (delete name (objects (blob_container w)))
               (blob_container w);
           calls := calls w ++ [ReadItem (route_id req); DeleteBlob name;
                                DeleteItem (route_id req)] |})) ∧
  (container w !! route_id req = None →
     delete_asset req w =
       (Return (text_response "Asset not found" 404),
        {| container := container w;
           blob_container := blob_container w;
           calls := calls w ++ [ReadItem (route_id req)] |})).
Proof.
  split.
  - intros asset url name Hstored Hurl Hname [blob Hblob].
    unfold delete_asset. run. rewrite Hstored. simpl.
    rewrite (blob_name_of_final_segment asset name url Hurl Hname). simpl.
    rewrite Hblob. simpl. rewrite Hstored. simpl.
    by rewrite <- !app_assoc.
  - intros Hmissing. unfold delete_asset. run. by rewrite Hmissing.
Qed.

Lemma delete_removes_blob_then_record_witness :
  delete_asset sample_delete world_with_blob =
    (Return (empty_response 204),
     {| container := delete (uuid4 sample_env) (container world_with_blob);
        blob_container :=
          {| container_url := sample_url;
             objects := delete "photo.bin"
                          (objects (blob_container world_with_blob)) |};
        calls := [ReadItem (uuid4 sample_env); DeleteBlob "photo.bin";
                  DeleteItem (uuid4 sample_env)] |}) ∧
  delete_asset sample_delete empty_world =
    (Return (text_response "Asset not found" 404),
     {| container := ∅;
        blob_container := blob_container empty_world;
        calls := [ReadItem (uuid4 sample_env)] |}).
Proof.
  split.
  - apply (proj1 (delete_removes_blob_then_record sample_delete
                    world_with_blob) sample_record sample_blobUrl "photo.bin").
    + reflexivity.
    + reflexivity.
    + split; [reflexivity|]. right. exists sample_url. reflexivity.
    + eexists. reflexivity.
  - apply (proj2 (delete_removes_blob_then_record sample_delete empty_world)).
    reflexivity.
Defined.

(** The record created from [sample_body] points at a blob nobody uploaded.
    Its id names an existing record, yet deleting it is not answered with
    204: the blob deletion raises, the error leaves the handler, and the
    record stays. *)
Lemma delete_record_without_blob :
  container world_after_create !! route_id sample_delete =
    Some sample_record ∧
  delete_asset sample_delete world_after_create =
    (Raise (BlobError ResourceNotFoundError),
     {| container := container world_after_create;
        blob_container := blob_container world_after_create;
        calls := [CreateItem sample_record; ReadItem (uuid4 sample_env);
                  DeleteBlob "photo.bin"] |}) ∧
  ∀ resp w',
    delete_asset sample_delete world_after_create ≠ (Return resp, w').
Proof. split; [reflexivity|]. split; [reflexivity|]. by intros resp w' [=]. Qed.

Section AnyBlobStore.
Context {B : Type} `{!BlobContainer B}.

(** C10: on an existing record, whatever blob store is used, when its
    deletion of the blob raises, [delete_asset] stops there: the error
    leaves the handler as raised, mapped to no HTTP response; the calls
    made are the read and the blob deletion, never a record deletion; and
    the Asset Store holds what it held. *)
Theorem delete_blob_error_keeps_record (req : HttpRequest)
    (w : World (gmap string dict) B) (asset : dict) (url name : string)
    (e : blob_error) :
  container w !! route_id req = Some asset →
  dict_lookup "blobUrl" asset = Some (JStr url) →
  is_final_segment name url →
  blob_delete_blob name (blob_container w) = inl e →
  delete_asset req w =
    (Raise (BlobError e),
     {| container := container w;
        blob_container := blob_container w;
        calls := calls w ++ [ReadItem (route_id req); DeleteBlob name] |}).
Proof.
  intros Hstored Hurl Hname Hfail. unfold delete_asset. run.
  rewrite Hstored. simpl.
  rewrite (blob_name_of_final_segment asset name url Hurl Hname). simpl.
  rewrite Hfail. simpl. by rewrite <- app_assoc.
Qed.
End AnyBlobStore.

Lemma delete_blob_error_keeps_record_witness :
  delete_asset sample_delete world_after_create =
    (Raise (BlobError ResourceNotFoundError),
     {| container := container world_after_create;
        blob_container := blob_container world_after_create;
        calls := calls world_after_create ++
                 [ReadItem (route_id sample_delete); DeleteBlob "photo.bin"] |}).
Proof.
  apply (delete_blob_error_keeps_record sample_delete world_after_create
           sample_record sample_blobUrl "photo.bin" ResourceNotFoundError).
  - reflexivity.
  - reflexivity.
  - split; [reflexivity|]. right. exists sample_url. reflexivity.
  - reflexivity.
Defined.

(** ** Upload *)

(** C8: an upload with an empty body answers 400 and makes no call on the
    Blob Store; an upload with a non-empty body stores the bytes under the
    server's UUID followed by [.bin] and answers 201 with that filename and
    the blob's URL. *)
Theorem upload_empty_or_stored (env : Env) (req : HttpRequest) (w : world) :
  (get_body req = [] →
     upload_file env req w = (Return (text_response "Empty file" 400), w)) ∧
  (get_body req ≠ [] →
     let filename := uuid4 env +:+ ".bin" in
     let ctype := default "application/octet-stream" (content_type req) in
     let url := container_url (blob_container w) +:+ "/" +:+ filename in
     upload_file env req w =
       (Return (json_response
                  (JObj [("filename", JStr filename); ("url", JStr url)]) 201),
        {| container := container w;
           blob_container :=
             set_objects
               (<[filename := (get_body req, ctype)]>
                  (objects (blob_container w)))
               (blob_container w);
           calls := calls w ++ [UploadBlob filename (get_body req) ctype] |})).
Proof.
  split.
  - intros Hempty. unfold upload_file. run. by rewrite Hempty.
  - intros Hbytes. unfold upload_file. run.
    by rewrite bool_decide_eq_false_2.
Qed.

Lemma upload_empty_or_stored_witness :
  upload_file sample_env (upload_request []) empty_world =
    (Return (text_response "Empty file" 400), empty_world) ∧
  (upload_file sample_env (upload_request sample_bytes) empty_world).1 =
    Return (json_response
              (JObj [("filename",
                      JStr "6f1c2b9e-8d3a-4c55-9a47-0e5b7d1f2a30.bin");
                     ("url",
                      JStr (sample_url +:+
                            "/6f1c2b9e-8d3a-4c55-9a47-0e5b7d1f2a30.bin"))])
              201).
Proof.
  split.
  - apply (proj1 (upload_empty_or_stored sample_env (upload_request [])
                    empty_world)). reflexivity.
  - rewrite (proj2 (upload_empty_or_stored sample_env
                      (upload_request sample_bytes) empty_world));
      [reflexivity|discriminate].
Defined.

(** ** The records the API leaves in the store *)

Lemma dict_setitem_keeps (key key' : string) (v : json) (doc : dict) :
  is_Some (dict_lookup key' doc) →
  is_Some (dict_lookup key' (dict_setitem key v doc)).
Proof.
  intros Hsome. destruct (decide (key = key')) as [->|Hne].
  - rewrite dict_lookup_setitem_eq. eauto.
  - by rewrite dict_lookup_setitem_ne.
Qed.

Lemma has_mutable_fields_setitem (key : string) (v : json) (doc : dict) :
  has_mutable_fields doc → has_mutable_fields (dict_setitem key v doc).
Proof. intros (? & ? & ?). split_and!; by apply dict_setitem_keeps. Qed.

Lemma merge_field_keeps (data : json) (key : string) (doc doc' : dict) :
  merge_field data key doc = Return doc' →
  has_mutable_fields doc → has_mutable_fields doc'.
Proof.
  unfold merge_field, dict_getitem.
  destruct data; simpl; try discriminate.
  destruct (dict_lookup key doc); simpl; [|discriminate].
  intros [= <-]. apply has_mutable_fields_setitem.
Qed.

Lemma records_complete_insert (c : gmap string dict) (id : string)
    (doc : dict) :
  records_complete c → has_mutable_fields doc →
  records_complete (<[id := doc]> c).
Proof.
  intros Hc Hdoc id' doc'. destruct (decide (id = id')) as [<-|Hne].
  - rewrite lookup_insert_eq. by intros [= <-].
  - rewrite lookup_insert_ne by done. apply Hc.
Qed.

Lemma records_complete_delete (c : gmap string dict) (id : string) :
  records_complete c → records_complete (delete id c).
Proof.
  intros Hc id' doc'. destruct (decide (id = id')) as [<-|Hne].
  - by rewrite lookup_delete_eq.
  - rewrite lookup_delete_ne by done. apply Hc.
Qed.

(** Every record [create_asset] stores and every record [update_asset]
    writes back has the three mutable fields, and [delete_asset] only
    removes records: a store filled through the API stays complete. *)
Lemma create_asset_complete (env : Env) (req : HttpRequest) (w : world) :
  records_complete (container w) →
  records_complete (container (create_asset env req w).2).
Proof.
  intros Hc. unfold create_asset, get_json. run.
  destruct (parsed_json req) as [data|]; simpl; [|done].
  destruct (required_missing data) as [[]|e]; simpl; [done| |done].
  destruct (new_asset env data) as [asset|e] eqn:Hnew; simpl; [|done].
  apply new_asset_inv in Hnew as (d & title & blobUrl & -> & _ & _ & ->).
  simpl. destruct (container w !! uuid4 env); simpl; [done|].
  apply records_complete_insert; [done|]. split_and!; simpl; eauto.
Qed.

Lemma update_asset_complete (env : Env) (req : HttpRequest) (w : world) :
  records_complete (container w) →
  records_complete (container (update_asset env req w).2).
Proof.
  intros Hc. unfold update_asset, get_json. run.
  destruct (parsed_json req) as [data|]; simpl; [|done].
  destruct (container w !! route_id req) as [asset|] eqn:Hstored; simpl;
    [|done].
  pose proof (Hc _ _ Hstored) as Hasset.
  destruct (merge_field data "title" asset) as [a1|e] eqn:H1; simpl;
    [|by destruct e as [| | | | |[]|]].
  destruct (merge_field data "description" a1) as [a2|e] eqn:H2; simpl;
    [|by destruct e as [| | | | |[]|]].
  destruct (merge_field data "blobUrl" a2) as [a3|e] eqn:H3; simpl;
    [|by destruct e as [| | | | |[]|]].
  rewrite Hstored. simpl. apply records_complete_insert; [done|].
  apply has_mutable_fields_setitem.
  eauto using merge_field_keeps.
Qed.

Lemma delete_asset_complete (req : HttpRequest) (w : world) :
  records_complete (container w) →
  records_complete (container (delete_asset req w).2).
Proof.
  intros Hc. unfold delete_asset. run.
  destruct (container w !! route_id req) as [asset|] eqn:Hstored; simpl;
    [|done].
  destruct (blob_name_of asset) as [name|e]; simpl;
    [|by destruct e as [| | | | |[]|]].
  destruct (objects (blob_container w) !! name); simpl; [|done].
  rewrite Hstored. simpl. by apply records_complete_delete.
Qed.

(** * Further properties of the handlers *)

(** ** What a handler leaves alone, whatever the stores are *)

Ltac crunch := repeat (case_match; simplify_eq/=).

Ltac solve_made :=
  first
    [ exists []; split; [by rewrite app_nil_r|constructor]
    | eexists [_]; split; [reflexivity|by repeat constructor]
    | eexists [_; _]; split;
      [by rewrite <- ?app_assoc|by repeat constructor]
    | eexists [_; _; _]; split;
      [by rewrite <- ?app_assoc|by repeat constructor] ].

Section AnyStores.
Context {C B : Type} `{!CosmosContainer C} `{!BlobContainer B}.

(** X1: the four handlers that manage metadata never call the Blob Store:
    after [create_asset], [get_asset], [list_assets] and [update_asset] the
    blob container is the one they started with, and every call they made
    went to the Cosmos container. *)
Theorem asset_handlers_leave_blobs (env : Env) (req : HttpRequest)
    (w : World C B) :
  let untouched w' :=
    blob_container w' = blob_container w ∧ made_since is_cosmos_call w w' in
  untouched (create_asset env req w).2 ∧
  untouched (get_asset req w).2 ∧
  untouched (list_assets req w).2 ∧
  untouched (update_asset env req w).2.
Proof.
  unfold made_since. simpl.
  split_and!;
    unfold create_asset, get_asset, list_assets, update_asset, get_json; run;
    repeat (case_match; simplify_eq/=); first [done|solve_made].
Qed.

(** X2: [upload_file] never calls the Cosmos container: the container is
    the one it started with and every call it made went to the Blob Store. *)
Theorem upload_leaves_assets (env : Env) (req : HttpRequest) (w : World C B) :
  container (upload_file env req w).2 = container w ∧
  made_since is_blob_call w (upload_file env req w).2.
Proof.
  unfold made_since. split; unfold upload_file; run; crunch;
    first [done|solve_made].
Qed.

(** X3: [get_asset] and [list_assets] only read: both stores are as before
    and the calls they made are reads. *)
Theorem get_and_list_read_only (req : HttpRequest) (w : World C B) :
  let unchanged w' :=
    container w' = container w ∧ blob_container w' = blob_container w ∧
    made_since is_read w w' in
  unchanged (get_asset req w).2 ∧ unchanged (list_assets req w).2.
Proof.
  unfold made_since. simpl.
  split_and!; unfold get_asset, list_assets; run; crunch;
    first [done|solve_made].
Qed.

(** X4: the three handlers whose [try] has an [except Exception] clause
    always answer: no exception leaves [create_asset], [list_assets] or
    [upload_file], and the status is one of those the handler writes. *)
Theorem generic_clause_always_answers (env : Env) (req : HttpRequest)
    (w : World C B) :
  (∃ resp, (create_asset env req w).1 = Return resp ∧
     (status_code resp = 201 ∨ status_code resp = 400 ∨
      status_code resp = 500)%Z) ∧
  (∃ resp, (list_assets req w).1 = Return resp ∧
     (status_code resp = 200 ∨ status_code resp = 500)%Z) ∧
  (∃ resp, (upload_file env req w).1 = Return resp ∧
     (status_code resp = 201 ∨ status_code resp = 400 ∨
      status_code resp = 500)%Z).
Proof.
  split_and!; unfold create_asset, list_assets, upload_file, get_json; run;
    crunch; eexists; (split; [reflexivity|]); simpl; auto.
Qed.

(** X5: the three handlers whose [try] only has the Cosmos not-found clause
    answer with their success status or with 404, and the error that clause
    takes is never the one that leaves them. *)
Theorem not_found_never_escapes (env : Env) (req : HttpRequest)
    (w : World C B) :
  let mapped (ok : Z) (o : outcome HttpResponse) :=
    match o with
    | Return resp => status_code resp = ok ∨ status_code resp = 404%Z
    | Raise e => e ≠ CosmosError CosmosResourceNotFoundError
    end in
  mapped 200%Z (get_asset req w).1 ∧
  mapped 200%Z (update_asset env req w).1 ∧
  mapped 204%Z (delete_asset req w).1.
Proof.
  simpl. split_and!;
    unfold get_asset, update_asset, delete_asset, get_json; run;
    crunch; auto.
Qed.

(** X6: when the store call of [create_asset], [list_assets] or
    [upload_file] raises, the handler answers 500 with the text of that
    error, and nothing but the failed call has happened. *)
Theorem store_failure_500 (env : Env) (req : HttpRequest) (w : World C B) :
  (∀ d title blobUrl e,
     parsed_json req = Some (JObj d) →
     dict_lookup "title" d = Some title →
     dict_lookup "blobUrl" d = Some blobUrl →
     let asset :=
       created_record env title (dict_get d "description" (JStr ""))
         blobUrl in
     cosmos_create_item asset (container w) = inl e →
     create_asset env req w =
       (Return (error_response (CosmosError e) 500),
        log (CreateItem asset) w)) ∧
  (∀ e,
     cosmos_read_all_items (container w) = inl e →
     list_assets req w =
       (Return (error_response (CosmosError e) 500), log ReadAllItems w)) ∧
  (∀ e,
     get_body req ≠ [] →
     let filename := uuid4 env +:+ ".bin" in
     let ctype := default "application/octet-stream" (content_type req) in
     blob_upload_blob filename (get_body req) ctype (blob_container w)
       = inl e →
     upload_file env req w =
       (Return (error_response (BlobError e) 500),
        log (UploadBlob filename (get_body req) ctype) w)).
Proof.
  split_and!.
  - intros d title blobUrl e Hjson Ht Hb asset Hfail.
    unfold create_asset, get_json. run.
    rewrite Hjson, required_missing_obj.
    assert (dict_contains "title" d = true) as ->
      by (apply dict_contains_true; eauto).
    assert (dict_contains "blobUrl" d = true) as ->
      by (apply dict_contains_true; eauto).
    simpl. rewrite (new_asset_obj env d title blobUrl Ht Hb).
    fold asset. simpl. by rewrite Hfail.
  - intros e Hfail. unfold list_assets. run. by rewrite Hfail.
  - intros e Hbytes filename ctype Hfail. unfold upload_file. run.
    rewrite bool_decide_eq_false_2 by done. fold filename ctype.
    by rewrite Hfail.
Qed.

(** X7: a Cosmos error other than not-found on the first read is mapped to
    no response: it leaves [get_asset] and [delete_asset], and
    [update_asset] when its body parses, as it was raised. *)
Theorem unmapped_read_error_escapes (env : Env) (req : HttpRequest)
    (w : World C B) (e : cosmos_error) :
  cosmos_read_item (route_id req) (container w) = inl e →
  e ≠ CosmosResourceNotFoundError →
  let escaped := (Raise (CosmosError e), log (ReadItem (route_id req)) w) in
  get_asset req w = escaped ∧
  delete_asset req w = escaped ∧
  (is_Some (parsed_json req) → update_asset env req w = escaped).
Proof.
  intros Hfail Hne. simpl.
  split_and!; [| |intros [data Hjson]];
    unfold get_asset, delete_asset, update_asset, get_json; run;
    rewrite ?Hjson; simpl; rewrite Hfail; by destruct e.
Qed.

(** X8: the two deletions of [delete_asset] are not undone: when the blob
    deletion went through and the record deletion raises, the blob is gone,
    the record is still there, and the handler answers 404 if the error is
    the Cosmos not-found error and lets it through otherwise. *)
Theorem delete_record_failure_after_blob (req : HttpRequest) (w : World C B)
    (asset : dict) (url name : string) (b' : B) (e : cosmos_error) :
  cosmos_read_item (route_id req) (container w) = inr asset →
  dict_lookup "blobUrl" asset = Some (JStr url) →
  is_final_segment name url →
  blob_delete_blob name (blob_container w) = inr b' →
  cosmos_delete_item (route_id req) (container w) = inl e →
  delete_asset req w =
    (match e with
     | CosmosResourceNotFoundError =>
         Return (text_response "Asset not found" 404)
     | _ => Raise (CosmosError e)
     end,
     {| container := container w;
        blob_container := b';
        calls := calls w ++ [ReadItem (route_id req); DeleteBlob name;
                             DeleteItem (route_id req)] |}).
Proof.
  intros Hread Hurl Hname Hblob Hfail. unfold delete_asset. run.
  rewrite Hread. simpl.
  rewrite (blob_name_of_final_segment asset name url Hurl Hname). simpl.
  rewrite Hblob. simpl. rewrite Hfail. simpl. rewrite <- !app_assoc.
  by destruct e.
Qed.

End AnyStores.

Lemma store_failure_500_witness :
  create_asset sample_env (json_request "" (Some sample_body)) offline_world =
    (Return (error_response (CosmosError CosmosHttpResponseError) 500),
     log (CreateItem sample_record) offline_world) ∧
  list_assets (json_request "" None) offline_world =
    (Return (error_response (CosmosError CosmosHttpResponseError) 500),
     log ReadAllItems offline_world) ∧
  upload_file sample_env (upload_request sample_bytes) offline_world =
    (Return (error_response (BlobError ServiceRequestError) 500),
     log (UploadBlob (uuid4 sample_env +:+ ".bin") sample_bytes "image/png")
       offline_world).
Proof.
  split_and!.
  - apply (proj1 (store_failure_500 sample_env
                    (json_request "" (Some sample_body)) offline_world)
             [("title", JStr "Photo"); ("blobUrl", JStr sample_blobUrl);
              ("id", JStr "forged");
              ("created_at", JStr "1999-01-01T00:00:00")]
             (JStr "Photo") (JStr sample_blobUrl) CosmosHttpResponseError);
      reflexivity.
  - apply (proj1 (proj2 (store_failure_500 sample_env (json_request "" None)
                           offline_world)) CosmosHttpResponseError).
    reflexivity.
  - apply (proj2 (proj2 (store_failure_500 sample_env
                           (upload_request sample_bytes) offline_world))
             ServiceRequestError); [discriminate|reflexivity].
Defined.

Lemma unmapped_read_error_escapes_witness :
  get_asset sample_update offline_world =
    (Raise (CosmosError CosmosHttpResponseError),
     log (ReadItem (uuid4 sample_env)) offline_world) ∧
  delete_asset sample_update offline_world =
    (Raise (CosmosError CosmosHttpResponseError),
     log (ReadItem (uuid4 sample_env)) offline_world) ∧
  update_asset sample_later sample_update offline_world =
    (Raise (CosmosError CosmosHttpResponseError),
     log (ReadItem (uuid4 sample_env)) offline_world).
Proof.
  destruct (unmapped_read_error_escapes sample_later sample_update
              offline_world CosmosHttpResponseError)
    as (Hget & Hdelete & Hupdate); [reflexivity|discriminate|].
  split_and!; [apply Hget|apply Hdelete|apply Hupdate; eexists; reflexivity].
Defined.

Lemma delete_record_failure_after_blob_witness :
  delete_asset sample_delete read_only_world =
    (Raise (CosmosError CosmosHttpResponseError),
     {| container := container read_only_world;
        blob_container :=
          set_objects
            (delete "photo.bin" (objects (blob_container world_with_blob)))
            (blob_container world_with_blob);
        calls := [ReadItem (uuid4 sample_env); DeleteBlob "photo.bin";
                  DeleteItem (uuid4 sample_env)] |}).
Proof.
  apply (delete_record_failure_after_blob sample_delete read_only_world
           sample_record sample_blobUrl "photo.bin" _ CosmosHttpResponseError).
  - reflexivity.
  - reflexivity.
  - split; [reflexivity|]. right. exists sample_url. reflexivity.
  - reflexivity.
  - reflexivity.
Defined.

(** ** How each handler leaves the finite-map stores *)

Lemma merge_field_inv (data : json) (key : string) (asset asset' : dict) :
  merge_field data key asset = Return asset' →
  ∃ d old, data = JObj d ∧ dict_lookup key asset = Some old ∧
           asset' = dict_setitem key (dict_get d key old) asset.
Proof.
  unfold merge_field, dict_getitem.
  destruct data as [| | | | | |d]; simpl; try discriminate.
  destruct (dict_lookup key asset) as [old|] eqn:Hold; simpl; [|discriminate].
  intros [= <-]. by exists d, old.
Qed.

Lemma last_split_inv (name url : string) :
  last (str_split "/" url) = Some name → is_final_segment name url.
Proof.
  intros Hlast. destruct (final_segment_exists url) as [name' Hname'].
  rewrite (last_split_final_segment name' url Hname') in Hlast.
  by injection Hlast as <-.
Qed.

Lemma blob_name_of_inv (asset : dict) (name : string) :
  blob_name_of asset = Return name →
  ∃ url, dict_lookup "blobUrl" asset = Some (JStr url) ∧
         is_final_segment name url.
Proof.
  unfold blob_name_of, dict_getitem, list_last.
  destruct (dict_lookup "blobUrl" asset) as [[| | | |url| |]|]; simpl;
    try discriminate.
  destruct (last (str_split "/" url)) as [name'|] eqn:Hlast; simpl;
    [|discriminate].
  intros [= <-]. exists url. split; [done|by apply last_split_inv].
Qed.

(** [create_asset] either stores the new record and answers 201, or leaves
    both stores as they were and answers something else. *)
Lemma create_asset_cases (env : Env) (req : HttpRequest) (w : world) :
  (∃ title description blobUrl,
     let asset := created_record env title description blobUrl in
     container w !! uuid4 env = None ∧
     create_asset env req w =
       (Return (json_response (JObj asset) 201),
        {| container := <[uuid4 env := asset]> (container w);
           blob_container := blob_container w;
           calls := calls w ++ [CreateItem asset] |})) ∨
  (container (create_asset env req w).2 = container w ∧
   blob_container (create_asset env req w).2 = blob_container w ∧
   ∀ resp, (create_asset env req w).1 = Return resp →
           status_code resp ≠ 201%Z).
Proof.
  unfold create_asset, get_json. run.
  destruct (parsed_json req) as [data|]; simpl;
    [|right; split_and!; [done..|by intros ? [= <-]]].
  destruct (required_missing data) as [[]|e]; simpl;
    [right; split_and!; [done..|by intros ? [= <-]]|
    |right; split_and!; [done..|by intros ? [= <-]]].
  destruct (new_asset env data) as [asset|e] eqn:Hnew; simpl;
    [|right; split_and!; [done..|by intros ? [= <-]]].
  apply new_asset_inv in Hnew as (d & title & blobUrl & -> & _ & _ & ->).
  simpl. destruct (container w !! uuid4 env) eqn:Hfresh; simpl.
  - right. split_and!; [done..|by intros ? [= <-]].
  - left. by eexists _, _, _.
Qed.

(** [update_asset] either replaces the stored record by the merged one and
    answers 200, or leaves both stores as they were and answers 404 if it
    answers at all. *)
Lemma update_asset_cases (env : Env) (req : HttpRequest) (w : world) :
  (∃ asset merged,
     container w !! route_id req = Some asset ∧
     (∀ key, key ∉ ["title"; "description"; "blobUrl"; "updated_at"] →
        dict_lookup key merged = dict_lookup key asset) ∧
     (∀ key, is_Some (dict_lookup key asset) →
        is_Some (dict_lookup key merged)) ∧
     update_asset env req w =
       (Return (json_response (JObj merged) 200),
        {| container := <[route_id req := merged]> (container w);
           blob_container := blob_container w;
           calls := calls w ++ [ReadItem (route_id req);
                                ReplaceItem (route_id req) merged] |})) ∨
  (container (update_asset env req w).2 = container w ∧
   blob_container (update_asset env req w).2 = blob_container w ∧
   ∀ resp, (update_asset env req w).1 = Return resp →
           status_code resp = 404%Z).
Proof.
  unfold update_asset, get_json. run.
  destruct (parsed_json req) as [data|]; simpl; [|right; by split_and!].
  destruct (container w !! route_id req) as [asset|] eqn:Hstored; simpl;
    [|right; split_and!; [done..|by intros ? [= <-]]].
  destruct (merge_field data "title" asset) as [a1|e] eqn:H1; simpl;
    [|right; destruct e as [| | | | |[]|]; split_and!;
       first [done|by intros ? [= <-]]].
  destruct (merge_field data "description" a1) as [a2|e] eqn:H2; simpl;
    [|right; destruct e as [| | | | |[]|]; split_and!;
       first [done|by intros ? [= <-]]].
  destruct (merge_field data "blobUrl" a2) as [a3|e] eqn:H3; simpl;
    [|right; destruct e as [| | | | |[]|]; split_and!;
       first [done|by intros ? [= <-]]].
  rewrite Hstored. simpl. left.
  apply merge_field_inv in H1 as (d & old1 & -> & _ & ->).
  apply merge_field_inv in H2 as (d2 & old2 & [= <-] & _ & ->).
  apply merge_field_inv in H3 as (d3 & old3 & [= <-] & _ & ->).
  eexists asset, _. split_and!; [done| | |by rewrite <- app_assoc].
  - intros key Hkey. rewrite !not_elem_of_cons in Hkey.
    destruct Hkey as (? & ? & ? & ? & _). by dict_simpl.
  - intros key Hkey. by repeat apply dict_setitem_keeps.
Qed.

(** [delete_asset] either removes the blob and the record and answers 204,
    or leaves both stores as they were and does not answer 204. *)
Lemma delete_asset_cases (req : HttpRequest) (w : world) :
  (∃ asset url name,
     container w !! route_id req = Some asset ∧
     dict_lookup "blobUrl" asset = Some (JStr url) ∧
     is_final_segment name url ∧
     is_Some (objects (blob_container w) !! name) ∧
     delete_asset req w =
       (Return (empty_response 204),
        {| container := delete (route_id req) (container w);
           blob_container :=
             set_objects (delete name (objects (blob_container w)))
               (blob_container w);
           calls := calls w ++ [ReadItem (route_id req); DeleteBlob name;
                                DeleteItem (route_id req)] |})) ∨
  (container (delete_asset req w).2 = container w ∧
   blob_container (delete_asset req w).2 = blob_container w ∧
   ∀ resp, (delete_asset req w).1 = Return resp →
           status_code resp = 404%Z).
Proof.
  unfold delete_asset. run.
  destruct (container w !! route_id req) as [asset|] eqn:Hstored; simpl;
    [|right; split_and!; [done..|by intros ? [= <-]]].
  destruct (blob_name_of asset) as [name|e] eqn:Hname; simpl;
    [|right; destruct e as [| | | | |[]|]; split_and!;
       first [done|by intros ? [= <-]]].
  apply blob_name_of_inv in Hname as (url & Hurl & Hname).
  destruct (objects (blob_container w) !! name) eqn:Hblob; simpl;
    [|right; by split_and!].
  rewrite Hstored. simpl. left.
  exists asset, url, name. split_and!; [done..|eauto|].
  by rewrite <- !app_assoc.
Qed.

(** ** Records no handler call is aimed at *)

(** X9: [create_asset] never overwrites: a record that is in the store
    before the call is there, unchanged, after it, whatever the request and
    whatever UUID is drawn. *)
Theorem create_keeps_existing_records (env : Env) (req : HttpRequest)
    (w : world) (id : string) (doc : dict) :
  container w !! id = Some doc →
  container (create_asset env req w).2 !! id = Some doc.
Proof.
  intros Hdoc.
  destruct (create_asset_cases env req w)
    as [(title & description & blobUrl & Hfresh & ->)|(-> & _)]; [|done].
  simpl. rewrite lookup_insert_ne; [done|]. by intros <-; simplify_eq.
Qed.

Lemma create_keeps_existing_records_witness :
  container
    (create_asset sample_env
       (json_request "" (Some (JObj [("title", JStr "Other");
                                     ("blobUrl", JStr "elsewhere")])))
       world_after_create).2 !! uuid4 sample_env = Some sample_record.
Proof.
  apply (create_keeps_existing_records sample_env _ world_after_create).
  reflexivity.
Defined.

(** X10: [update_asset] neither adds nor removes a record, and every record
    stored under another id than the one in the route is unchanged. *)
Theorem update_touches_one_record (env : Env) (req : HttpRequest)
    (w : world) (id : string) :
  (is_Some (container (update_asset env req w).2 !! id) ↔
   is_Some (container w !! id)) ∧
  (id ≠ route_id req →
   container (update_asset env req w).2 !! id = container w !! id).
Proof.
  destruct (update_asset_cases env req w)
    as [(asset & merged & Hstored & _ & _ & ->)|(-> & _)]; [|done].
  simpl. split.
  - destruct (decide (route_id req = id)) as [<-|Hne].
    + rewrite lookup_insert_eq, Hstored. split; eauto.
    + by rewrite lookup_insert_ne.
  - intros Hne. by rewrite lookup_insert_ne.
Qed.

(** X11: [delete_asset] changes no record stored under another id than the
    one in the route, adds no blob, and removes at most one blob. *)
Theorem delete_touches_one_record (req : HttpRequest) (w : world) :
  let w' := (delete_asset req w).2 in
  (∀ id, id ≠ route_id req → container w' !! id = container w !! id) ∧
  (∀ name blob,
     objects (blob_container w') !! name = Some blob →
     objects (blob_container w) !! name = Some blob) ∧
  (∃ name, ∀ name', name' ≠ name →
     objects (blob_container w') !! name' =
     objects (blob_container w) !! name') ∧
  container_url (blob_container w') = container_url (blob_container w).
Proof.
  destruct (delete_asset_cases req w)
    as [(asset & url & name & _ & _ & _ & _ & ->)|(Hc & Hb & _)]; simpl.
  - split_and!; [| |exists name|done].
    + intros id Hne. by rewrite lookup_delete_ne.
    + intros name' blob. destruct (decide (name = name')) as [<-|Hne].
      * by rewrite lookup_delete_eq.
      * by rewrite lookup_delete_ne.
    + intros name' Hne. by rewrite lookup_delete_ne.
  - rewrite Hc, Hb. split_and!; [done..|by exists ""|done].
Qed.

(** ** One call after another *)

(** X12: once [delete_asset] has answered 204, the record is gone and so is
    its blob: a get-by-id and a second delete with the same id both answer
    404, and the blob named by the final segment of the record's [blobUrl]
    is no longer in the Blob Store. *)
Theorem get_after_delete (req : HttpRequest) (w w' : world)
    (resp : HttpResponse) :
  delete_asset req w = (Return resp, w') →
  status_code resp = 204%Z →
  get_asset req w' =
    (Return (text_response "Asset not found" 404),
     log (ReadItem (route_id req)) w') ∧
  delete_asset req w' =
    (Return (text_response "Asset not found" 404),
     log (ReadItem (route_id req)) w') ∧
  ∃ asset url name,
    container w !! route_id req = Some asset ∧
    dict_lookup "blobUrl" asset = Some (JStr url) ∧
    is_final_segment name url ∧
    objects (blob_container w') !! name = None.
Proof.
  intros Hdelete Hstatus.
  destruct (delete_asset_cases req w)
    as [(asset & url & name & Hstored & Hurl & Hname & _ & Hrun)
       |(_ & _ & H404)].
  - rewrite Hrun in Hdelete. injection Hdelete as <- <-.
    split_and!.
    + unfold get_asset. run. by rewrite lookup_delete_eq.
    + unfold delete_asset. run. by rewrite lookup_delete_eq.
    + exists asset, url, name. split_and!; [done..|].
      simpl. apply lookup_delete_eq.
  - rewrite Hdelete in H404. specialize (H404 resp eq_refl). congruence.
Qed.

Lemma get_after_delete_witness :
  let w' := (delete_asset sample_delete world_with_blob).2 in
  get_asset sample_delete w' =
    (Return (text_response "Asset not found" 404),
     log (ReadItem (uuid4 sample_env)) w') ∧
  delete_asset sample_delete w' =
    (Return (text_response "Asset not found" 404),
     log (ReadItem (uuid4 sample_env)) w').
Proof.
  destruct (get_after_delete sample_delete world_with_blob
              (delete_asset sample_delete world_with_blob).2
              (empty_response 204)) as (Hget & Hdelete & _);
    [reflexivity|reflexivity|].
  split; [apply Hget|apply Hdelete].
Defined.




(** ** Listing *)

Lemma list_assets_run (req : HttpRequest) (w : world) :
  list_assets req w =
    (Return (json_response
               (JArr (JObj <$> (map_to_list (container w)).*2)) 200),
     log ReadAllItems w).
Proof. reflexivity. Qed.

(** X14: [list_assets] answers 200 with an array holding one object per
    stored record: as many items as the store has records, and a document
    is listed exactly when it is stored under some id. *)
Theorem list_returns_every_record (req : HttpRequest) (w : world) :
  ∃ docs,
    list_assets req w =
      (Return (json_response (JArr (JObj <$> docs)) 200),
       log ReadAllItems w) ∧
    length docs = size (container w) ∧
    ∀ doc, doc ∈ docs ↔ ∃ id, container w !! id = Some doc.
Proof.
  exists (map_to_list (container w)).*2. split_and!.
  - apply list_assets_run.
  - by rewrite length_fmap, length_map_to_list.
  - intros doc. rewrite list_elem_of_fmap. split.
    + intros [[id doc'] [-> Hin]]. exists id. by apply elem_of_map_to_list.
    + intros [id Hid]. exists (id, doc). split; [done|].
      by apply elem_of_map_to_list.
Qed.

(** X15: after [create_asset] has answered 201, the listing is the former
    listing plus one document, in some order: the record just returned
    followed by the service's five properties. *)
Theorem list_after_create (env : Env) (req req1 req2 : HttpRequest)
    (w w' : service_world) (resp : HttpResponse) :
  create_asset env req w = (Return resp, w') →
  status_code resp = 201%Z →
  ∃ asset rid self etag ts docs docs',
    let stored :=
      asset ++ [("_rid", JStr rid); ("_self", JStr self);
                ("_etag", JStr etag); ("_attachments", JStr "attachments/");
                ("_ts", JInt ts)] in
    resp = json_response (JObj asset) 201 ∧
    (list_assets req1 w).1 =
      Return (json_response (JArr (JObj <$> docs)) 200) ∧
    (list_assets req2 w').1 =
      Return (json_response (JArr (JObj <$> docs')) 200) ∧
    docs' ≡ₚ stored :: docs.
Proof.
  intros Hcreate Hstatus.
  destruct (create_asset_201_service env req w w' resp Hcreate Hstatus)
    as (title & description & blobUrl & -> & Hfresh & ->).
  set (s := stamps (container w) (writes (container w))).
  exists (created_record env title description blobUrl),
    (stamp_rid s), (stamp_self s), (stamp_etag s), (stamp_ts s).
  eexists _, _. intros stored. split_and!; [done|reflexivity|reflexivity|].
  simpl. by rewrite (map_to_list_insert _ _ _ Hfresh).
Qed.

Lemma list_after_create_witness :
  ∃ asset rid self etag ts docs docs',
    let stored :=
      asset ++ [("_rid", JStr rid); ("_self", JStr self);
                ("_etag", JStr etag); ("_attachments", JStr "attachments/");
                ("_ts", JInt ts)] in
    json_response (JObj sample_record) 201 =
      json_response (JObj asset) 201 ∧
    (list_assets (json_request "" None) empty_service_world).1 =
      Return (json_response (JArr (JObj <$> docs)) 200) ∧
    (list_assets (json_request "" None) service_world_after_create).1 =
      Return (json_response (JArr (JObj <$> docs')) 200) ∧
    docs' ≡ₚ stored :: docs.
Proof.
  apply (list_after_create sample_env (json_request "" (Some sample_body))
           _ _ empty_service_world service_world_after_create); reflexivity.
Defined.

(** X16: after [delete_asset] has answered 204, the listing is the former
    listing without the deleted record. *)
Theorem list_after_delete (req req1 req2 : HttpRequest) (w w' : world)
    (resp : HttpResponse) :
  delete_asset req w = (Return resp, w') →
  status_code resp = 204%Z →
  ∃ asset docs docs',
    container w !! route_id req = Some asset ∧
    (list_assets req1 w).1 =
      Return (json_response (JArr (JObj <$> docs)) 200) ∧
    (list_assets req2 w').1 =
      Return (json_response (JArr (JObj <$> docs')) 200) ∧
    docs ≡ₚ asset :: docs'.
Proof.
  intros Hdelete Hstatus.
  destruct (delete_asset_cases req w)
    as [(asset & url & name & Hstored & _ & _ & _ & Hrun)|(_ & _ & H404)].
  - rewrite Hrun in Hdelete. injection Hdelete as <- <-.
    eexists asset, _, _. rewrite !list_assets_run. simpl.
    split_and!; [done..|].
    by rewrite <- (map_to_list_delete _ _ _ Hstored).
  - rewrite Hdelete in H404. specialize (H404 resp eq_refl). congruence.
Qed.

Lemma list_after_delete_witness :
  ∃ asset docs docs',
    container world_with_blob !! route_id sample_delete = Some asset ∧
    (list_assets (json_request "" None) world_with_blob).1 =
      Return (json_response (JArr (JObj <$> docs)) 200) ∧
    (list_assets (json_request "" None)
       (delete_asset sample_delete world_with_blob).2).1 =
      Return (json_response (JArr (JObj <$> docs')) 200) ∧
    docs ≡ₚ asset :: docs'.
Proof.
  apply (list_after_delete sample_delete _ _ world_with_blob
           (delete_asset sample_delete world_with_blob).2
           (empty_response 204)); reflexivity.
Defined.

(** ** From upload to delete *)

Lemma str_mem_app (c : ascii) (s t : string) :
  str_mem c (s +:+ t) = str_mem c s || str_mem c t.
Proof.
  induction s as [|c' s IH]; [done|].
  rewrite append_cons. simpl. by rewrite IH, orb_assoc.
Qed.

Lemma upload_file_stores (env : Env) (req : HttpRequest) (w : world) :
  get_body req ≠ [] →
  let filename := uuid4 env +:+ ".bin" in
  let ctype := default "application/octet-stream" (content_type req) in
  let url := container_url (blob_container w) +:+ "/" +:+ filename in
  upload_file env req w =
    (Return (json_response
               (JObj [("filename", JStr filename); ("url", JStr url)]) 201),
     {| container := container w;
        blob_container :=
          set_objects
            (<[filename := (get_body req, ctype)]>
               (objects (blob_container w)))
            (blob_container w);
        calls := calls w ++ [UploadBlob filename (get_body req) ctype] |}).
Proof.
  intros Hbytes. unfold upload_file. run. by rewrite bool_decide_eq_false_2.
Qed.

Lemma delete_asset_stores (req : HttpRequest) (w : world) (asset : dict)
    (url name : string) :
  container w !! route_id req = Some asset →
  dict_lookup "blobUrl" asset = Some (JStr url) →
  is_final_segment name url →
  is_Some (objects (blob_container w) !! name) →
  delete_asset req w =
    (Return (empty_response 204),
     {| container := delete (route_id req) (container w);
        blob_container :=
          set_objects (delete name (objects (blob_container w)))
            (blob_container w);
        calls := calls w ++ [ReadItem (route_id req); DeleteBlob name;
                             DeleteItem (route_id req)] |}).
Proof.
  intros Hstored Hurl Hname [blob Hblob].
  unfold delete_asset. run. rewrite Hstored. simpl.
  rewrite (blob_name_of_final_segment asset name url Hurl Hname). simpl.
  rewrite Hblob. simpl. rewrite Hstored. simpl.
  by rewrite <- !app_assoc.
Qed.

(** The name [upload_file] generates is the final segment of the URL it
    returns, as long as the UUID text holds no slash. *)
Lemma uploaded_name_final_segment (uuid base : string) :
  str_mem "/" uuid = false →
  is_final_segment (uuid +:+ ".bin") (base +:+ "/" +:+ (uuid +:+ ".bin")).
Proof.
  intros Huuid. split.
  - by rewrite str_mem_app, Huuid.
  - right. by exists base.
Qed.

(** X17: the blob name [delete_asset] derives from a record whose [blobUrl]
    is the URL [upload_file] returned is the filename that upload generated,
    and the blob is stored under it. *)
Theorem delete_derives_uploaded_name (env : Env) (req : HttpRequest)
    (w w' : world) (filename url : string) (asset : dict) :
  upload_file env req w =
    (Return (json_response
               (JObj [("filename", JStr filename); ("url", JStr url)]) 201),
     w') →
  str_mem "/" (uuid4 env) = false →
  dict_lookup "blobUrl" asset = Some (JStr url) →
  blob_name_of asset = Return filename ∧
  objects (blob_container w') !! filename =
    Some (get_body req,
          default "application/octet-stream" (content_type req)).
Proof.
  intros Hupload Huuid Hurl.
  destruct (decide (get_body req = [])) as [Hempty|Hbytes].
  { unfold upload_file in Hupload. revert Hupload. run.
    by rewrite Hempty. }
  rewrite (upload_file_stores env req w Hbytes) in Hupload.
  injection Hupload as <- <- <-. split.
  - apply (blob_name_of_final_segment asset _ _ Hurl).
    by apply uploaded_name_final_segment.
  - simpl. apply lookup_insert_eq.
Qed.

Lemma delete_derives_uploaded_name_witness :
  let filename := uuid4 sample_env +:+ ".bin" in
  blob_name_of [("blobUrl", JStr (sample_url +:+ "/" +:+ filename))] =
    Return filename ∧
  objects
    (blob_container
       (upload_file sample_env (upload_request sample_bytes) empty_world).2)
    !! filename = Some (sample_bytes, "image/png").
Proof.
  apply (delete_derives_uploaded_name sample_env
           (upload_request sample_bytes) empty_world
           (upload_file sample_env (upload_request sample_bytes)
              empty_world).2
           (uuid4 sample_env +:+ ".bin")
           (sample_url +:+ "/" +:+ (uuid4 sample_env +:+ ".bin")));
    reflexivity.
Defined.

(** X18: upload a file, create an asset whose [blobUrl] is the URL just
    returned, then delete that asset: the three calls answer 201, 201 and
    204, the Asset Store ends as it started, and the uploaded blob is gone
    again. *)
Theorem upload_create_delete (env_u env_c : Env) (req_u : HttpRequest)
    (w : world) (title : json) :
  get_body req_u ≠ [] →
  str_mem "/" (uuid4 env_u) = false →
  container w !! uuid4 env_c = None →
  let filename := uuid4 env_u +:+ ".bin" in
  let url := container_url (blob_container w) +:+ "/" +:+ filename in
  let req_c :=
    json_request "" (Some (JObj [("title", title); ("blobUrl", JStr url)])) in
  let req_d := json_request (uuid4 env_c) None in
  let w1 := (upload_file env_u req_u w).2 in
  let w2 := (create_asset env_c req_c w1).2 in
  let w3 := (delete_asset req_d w2).2 in
  (upload_file env_u req_u w).1 =
    Return (json_response
              (JObj [("filename", JStr filename); ("url", JStr url)]) 201) ∧
  (create_asset env_c req_c w1).1 =
    Return (json_response
              (JObj (created_record env_c title (JStr "") (JStr url))) 201) ∧
  (delete_asset req_d w2).1 = Return (empty_response 204) ∧
  container w3 = container w ∧
  objects (blob_container w3) = delete filename (objects (blob_container w)).
Proof.
  intros Hbytes Huuid Hfresh filename url req_c req_d w1 w2 w3.
  subst w3 w2 w1. rewrite (upload_file_stores env_u req_u w Hbytes).
  fold filename url. simpl.
  rewrite (create_asset_stores env_c req_c _
             [("title", title); ("blobUrl", JStr url)] title (JStr url))
    by done.
  simpl.
  rewrite (delete_asset_stores req_d _
             (created_record env_c title (JStr "") (JStr url)) url filename).
  - simpl. split_and!; [done..| |].
    + by apply delete_insert_id.
    + apply delete_insert_eq.
  - simpl. apply lookup_insert_eq.
  - done.
  - by apply uploaded_name_final_segment.
  - simpl. rewrite lookup_insert_eq. eauto.
Qed.

Lemma upload_create_delete_witness :
  let w1 :=
    (upload_file sample_env (upload_request sample_bytes) empty_world).2 in
  let url := sample_url +:+ "/" +:+ (uuid4 sample_env +:+ ".bin") in
  let req_c :=
    json_request ""
      (Some (JObj [("title", JStr "Photo"); ("blobUrl", JStr url)])) in
  let w2 := (create_asset sample_later req_c w1).2 in
  let w3 := (delete_asset (json_request (uuid4 sample_later) None) w2).2 in
  (delete_asset (json_request (uuid4 sample_later) None) w2).1 =
    Return (empty_response 204) ∧
  container w3 = ∅ ∧
  objects (blob_container w3) =
    delete (uuid4 sample_env +:+ ".bin") (objects (blob_container empty_world)).
Proof.
  destruct (upload_create_delete sample_env sample_later
              (upload_request sample_bytes) empty_world (JStr "Photo"))
    as (_ & _ & Hdelete & Hassets & Hblobs);
    [discriminate|reflexivity|reflexivity|].
  split_and!; [apply Hdelete|apply Hassets|apply Hblobs].
Defined.

(** X19: [create_asset] checks that [blobUrl] is there, not what it is: a
    body whose [blobUrl] is not a text is stored with 201, and the record it
    makes cannot be deleted: [delete_asset] raises when it asks the value
    for [split], before any deletion, and the record stays. *)
Theorem non_text_blobUrl_cannot_be_deleted (env : Env) (req : HttpRequest)
    (w : world) (d : dict) (title blobUrl : json) :
  parsed_json req = Some (JObj d) →
  dict_lookup "title" d = Some title →
  dict_lookup "blobUrl" d = Some blobUrl →
  (∀ s, blobUrl ≠ JStr s) →
  container w !! uuid4 env = None →
  let w1 := (create_asset env req w).2 in
  (∃ asset,
     (create_asset env req w).1 = Return (json_response (JObj asset) 201) ∧
     container w1 !! uuid4 env = Some asset) ∧
  delete_asset (json_request (uuid4 env) None) w1 =
    (Raise AttributeError, log (ReadItem (uuid4 env)) w1).
Proof.
  intros Hjson Ht Hb Htext Hfresh w1. subst w1.
  rewrite (create_asset_stores env req w d title blobUrl) by done.
  simpl. split.
  - eexists. split; [done|]. apply lookup_insert_eq.
  - unfold delete_asset. run. rewrite lookup_insert_eq. simpl.
    destruct blobUrl; try done. by destruct (Htext s).
Qed.

Lemma non_text_blobUrl_cannot_be_deleted_witness :
  let req :=
    json_request "" (Some (JObj [("title", JStr "t"); ("blobUrl", JInt 5)])) in
  let w1 := (create_asset sample_env req empty_world).2 in
  delete_asset (json_request (uuid4 sample_env) None) w1 =
    (Raise AttributeError, log (ReadItem (uuid4 sample_env)) w1).
Proof.
  apply (non_text_blobUrl_cannot_be_deleted sample_env _ empty_world
           [("title", JStr "t"); ("blobUrl", JInt 5)] (JStr "t") (JInt 5));
    done.
Defined.

(** ** More on update *)

Lemma dict_setitem_same (key : string) (v : json) (doc : dict) :
  dict_lookup key doc = Some v → dict_setitem key v doc = doc.
Proof.
  induction doc as [|[k x] doc IH]; simpl; [done|].
  case_decide; [by intros [= ->]|]. intros Hv. by rewrite IH.
Qed.

(** X20: an update whose JSON object has none of [title], [description],
    [blobUrl] changes nothing but the stamp, whatever other keys it holds:
    the record written back and returned is the stored one with
    [updated_at] set. *)
Theorem update_without_fields_only_stamps (env : Env) (req : HttpRequest)
    (w : world) (d asset : dict) :
  parsed_json req = Some (JObj d) →
  container w !! route_id req = Some asset →
  has_mutable_fields asset →
  dict_lookup "title" d = None →
  dict_lookup "description" d = None →
  dict_lookup "blobUrl" d = None →
  let stamped :=
    dict_setitem "updated_at" (JStr (isoformat (utcnow env))) asset in
  update_asset env req w =
    (Return (json_response (JObj stamped) 200),
     {| container := <[route_id req := stamped]> (container w);
        blob_container := blob_container w;
        calls := calls w ++ [ReadItem (route_id req);
                             ReplaceItem (route_id req) stamped] |}).
Proof.
  intros Hjson Hstored ([title Ht] & [description Hd] & [blobUrl Hb])
    Hnt Hnd Hnb stamped.
  unfold update_asset, get_json. run. rewrite Hjson. simpl.
  rewrite Hstored. simpl.
  assert (∀ key old, dict_lookup key d = None →
            dict_lookup key asset = Some old →
            merge_field (JObj d) key asset = Return asset) as Hmerge.
  { intros key old Hkey Hold. rewrite (merge_field_obj d key asset old Hold).
    unfold dict_get. rewrite Hkey. by rewrite dict_setitem_same. }
  rewrite (Hmerge "title" title), (Hmerge "description" description),
    (Hmerge "blobUrl" blobUrl) by done.
  simpl. rewrite Hstored. simpl. by rewrite <- app_assoc.
Qed.

Lemma update_without_fields_only_stamps_witness :
  let req :=
    json_request (uuid4 sample_env) (Some (JObj [("id", JStr "forged")])) in
  (update_asset sample_later req world_after_create).1 =
    Return (json_response
              (JObj (sample_record ++
                     [("updated_at", JStr "2024-03-09T08:00:00")])) 200).
Proof.
  simpl.
  rewrite (update_without_fields_only_stamps sample_later _
             world_after_create [("id", JStr "forged")] sample_record);
    [reflexivity..| |reflexivity|reflexivity|reflexivity].
  split_and!; eexists; reflexivity.
Defined.

(** X21: [update_asset] reads each stored field before it looks at the
    body, so a stored document that lacks one of [title], [description],
    [blobUrl] cannot be updated, not even to supply the field: the handler
    raises [KeyError] for the first one missing and writes nothing. *)
Theorem update_incomplete_record_raises (env : Env) (req : HttpRequest)
    (w : world) (d asset : dict) :
  parsed_json req = Some (JObj d) →
  container w !! route_id req = Some asset →
  ¬ has_mutable_fields asset →
  ∃ key,
    key ∈ ["title"; "description"; "blobUrl"] ∧
    dict_lookup key asset = None ∧
    update_asset env req w =
      (Raise (KeyError key), log (ReadItem (route_id req)) w).
Proof.
  intros Hjson Hstored Hincomplete.
  unfold update_asset, get_json. run. rewrite Hjson. simpl.
  rewrite Hstored. simpl. unfold merge_field, dict_getitem. simpl.
  destruct (dict_lookup "title" asset) as [title|] eqn:Ht; simpl;
    [|exists "title"; split_and!; [set_solver|done..]].
  rewrite dict_lookup_setitem_ne by done.
  destruct (dict_lookup "description" asset) as [description|] eqn:Hd; simpl;
    [|exists "description"; split_and!; [set_solver|done..]].
  rewrite !dict_lookup_setitem_ne by done.
  destruct (dict_lookup "blobUrl" asset) as [blobUrl|] eqn:Hb; simpl;
    [|exists "blobUrl"; split_and!; [set_solver|done..]].
  destruct Hincomplete. unfold has_mutable_fields. rewrite Ht, Hd, Hb. eauto.
Qed.

Lemma update_incomplete_record_raises_witness :
  let w : world :=
    {| container := <["a1" := [("id", JStr "a1"); ("title", JStr "t")]]> ∅;
       blob_container := blob_container empty_world;
       calls := [] |} in
  let req :=
    json_request "a1" (Some (JObj [("description", JStr "now given")])) in
  ∃ key,
    key ∈ ["title"; "description"; "blobUrl"] ∧
    dict_lookup key [("id", JStr "a1"); ("title", JStr "t")] = None ∧
    update_asset sample_later req w =
      (Raise (KeyError key), log (ReadItem "a1") w).
Proof.
  intros w req.
  apply (update_incomplete_record_raises sample_later req w
           [("description", JStr "now given")]
           [("id", JStr "a1"); ("title", JStr "t")]).
  - reflexivity.
  - reflexivity.
  - intros (_ & [v Hv] & _). discriminate Hv.
Defined.

(** ** The blob name *)

(** X22: for every record whose [blobUrl] is a text, the blob name
    [delete_asset] derives exists and is the final path segment of that
    text, and nothing else is: it holds no slash, it is the whole text when
    the text has no slash, and what follows the last slash otherwise. *)
Theorem blob_name_is_the_final_segment (asset : dict) (url : string) :
  dict_lookup "blobUrl" asset = Some (JStr url) →
  ∃ name,
    blob_name_of asset = Return name ∧
    is_final_segment name url ∧
    ∀ name', is_final_segment name' url → name' = name.
Proof.
  intros Hurl. destruct (final_segment_exists url) as [name Hname].
  exists name.
  split_and!; [by apply (blob_name_of_final_segment _ _ url)|done|].
  intros name' Hname'.
  pose proof (last_split_final_segment name url Hname) as Hlast.
  rewrite (last_split_final_segment name' url Hname') in Hlast.
  by injection Hlast.
Qed.

Lemma blob_name_is_the_final_segment_witness :
  ∃ name,
    blob_name_of sample_record = Return name ∧
    is_final_segment name sample_blobUrl ∧
    ∀ name', is_final_segment name' sample_blobUrl → name' = name.
Proof.
  apply (blob_name_is_the_final_segment sample_record sample_blobUrl).
  reflexivity.
Defined.

(** ** Any history of calls *)

Lemma get_asset_container (req : HttpRequest) (w : world) :
  container (get_asset req w).2 = container w.
Proof. unfold get_asset. run. by destruct (container w !! route_id req). Qed.

Lemma upload_file_container (env : Env) (req : HttpRequest) (w : world) :
  container (upload_file env req w).2 = container w.
Proof. unfold upload_file. run. by case_bool_decide. Qed.

Lemma invoke_keeps_store_ok (i : invocation) (w : world) :
  store_ok (container w) → store_ok (container (invoke i w).2).
Proof.
  intros Hok. destruct i as [env req|req|req|env req|req|env req]; simpl.
  - destruct (create_asset_cases env req w)
      as [(title & description & blobUrl & Hfresh & ->)|(-> & _)]; [|done].
    simpl. intros id doc. destruct (decide (uuid4 env = id)) as [<-|Hne].
    + rewrite lookup_insert_eq. intros [= <-].
      unfold well_formed_record, has_mutable_fields.
      split_and!; simpl; eauto.
    + rewrite lookup_insert_ne by done. apply Hok.
  - by rewrite get_asset_container.
  - done.
  - destruct (update_asset_cases env req w)
      as [(asset & merged & Hstored & Hframe & Hkeeps & ->)|(-> & _)];
      [|done].
    simpl. intros id doc. destruct (decide (route_id req = id)) as [<-|Hne].
    + rewrite lookup_insert_eq. intros [= <-].
      destruct (Hok _ _ Hstored) as (Hid & (? & ? & ?) & ?).
      unfold well_formed_record, has_mutable_fields.
      split_and!; [|by apply Hkeeps..].
      rewrite Hframe; [done|].
      rewrite !not_elem_of_cons. split_and!; [done..|apply not_elem_of_nil].
    + rewrite lookup_insert_ne by done. apply Hok.
  - destruct (delete_asset_cases req w)
      as [(asset & url & name & _ & _ & _ & _ & ->)|(-> & _)]; [|done].
    simpl. intros id doc. destruct (decide (route_id req = id)) as [<-|Hne].
    + by rewrite lookup_delete_eq.
    + rewrite lookup_delete_ne by done. apply Hok.
  - by rewrite upload_file_container.
Qed.

(** X23: whatever sequence of calls the API serves, and whatever each one
    answers, every record in the Asset Store keeps the shape [create_asset]
    gave it: its [id] field is the id it is stored under, and it has
    [title], [description], [blobUrl] and [created_at]. *)
Theorem serve_keeps_store_ok (history : list invocation) (w : world) :
  store_ok (container w) → store_ok (container (serve history w)).
Proof.
  revert w. induction history as [|i history IH]; intros w Hok; [done|].
  simpl. apply IH. by apply invoke_keeps_store_ok.
Qed.

Lemma serve_keeps_store_ok_witness :
  store_ok
    (container
       (serve [UploadFile sample_env (upload_request sample_bytes);
               CreateAsset sample_env (json_request "" (Some sample_body));
               UpdateAsset sample_later sample_update;
               GetAsset sample_update;
               DeleteAsset sample_delete;
               ListAssets (json_request "" None)]
          empty_world)).
Proof.
  apply (serve_keeps_store_ok _ empty_world).
  intros id doc Hdoc. simpl in Hdoc. by rewrite lookup_empty in Hdoc.
Defined.

(** X24: no call changes the [id] or the [created_at] of a record: if a
    record is stored under an id before a call and one is stored under that
    id after it, the two agree on both fields. *)
Theorem id_and_created_at_never_change (i : invocation) (w : world)
    (id : string) (doc doc' : dict) :
  container w !! id = Some doc →
  container (invoke i w).2 !! id = Some doc' →
  dict_lookup "id" doc' = dict_lookup "id" doc ∧
  dict_lookup "created_at" doc' = dict_lookup "created_at" doc.
Proof.
  intros Hdoc.
  destruct i as [env req|req|req|env req|req|env req]; simpl.
  - destruct (create_asset_cases env req w)
      as [(title & description & blobUrl & Hfresh & ->)|(-> & _)];
      [|by rewrite Hdoc; intros [= <-]].
    simpl. rewrite lookup_insert_ne by (intros <-; congruence).
    by rewrite Hdoc; intros [= <-].
  - rewrite get_asset_container. by rewrite Hdoc; intros [= <-].
  - by rewrite Hdoc; intros [= <-].
  - destruct (update_asset_cases env req w)
      as [(asset & merged & Hstored & Hframe & _ & ->)|(-> & _)];
      [|by rewrite Hdoc; intros [= <-]].
    simpl. destruct (decide (route_id req = id)) as [<-|Hne].
    + rewrite lookup_insert_eq. intros [= <-]. simplify_eq.
      split; apply Hframe; rewrite !not_elem_of_cons;
        (split_and!; [done..|apply not_elem_of_nil]).
    + rewrite lookup_insert_ne by done. by rewrite Hdoc; intros [= <-].
  - destruct (delete_asset_cases req w)
      as [(asset & url & name & _ & _ & _ & _ & ->)|(-> & _)];
      [|by rewrite Hdoc; intros [= <-]].
    simpl. destruct (decide (route_id req = id)) as [<-|Hne].
    + by rewrite lookup_delete_eq.
    + rewrite lookup_delete_ne by done. by rewrite Hdoc; intros [= <-].
  - rewrite upload_file_container. by rewrite Hdoc; intros [= <-].
Qed.

Lemma id_and_created_at_never_change_witness :
  ∃ doc',
    container
      (invoke
         (UpdateAsset sample_later
            (json_request (uuid4 sample_env)
               (Some (JObj [("id", JStr "forged");
                            ("created_at", JStr "1999-01-01T00:00:00");
                            ("title", JStr "Renamed")]))))
         world_after_create).2 !! uuid4 sample_env = Some doc' ∧
    dict_lookup "title" doc' = Some (JStr "Renamed") ∧
    dict_lookup "id" doc' = Some (JStr (uuid4 sample_env)) ∧
    dict_lookup "created_at" doc' = Some (JStr "2024-03-09T07:05:01.000042").
Proof.
  eexists. split; [reflexivity|]. split; [reflexivity|].
  apply (id_and_created_at_never_change
           (UpdateAsset sample_later
              (json_request (uuid4 sample_env)
                 (Some (JObj [("id", JStr "forged");
                              ("created_at", JStr "1999-01-01T00:00:00");
                              ("title", JStr "Renamed")]))))
           world_after_create (uuid4 sample_env) sample_record _ eq_refl).
  reflexivity.
Defined.

(** ** Bodies that are JSON but not objects *)

Section NonObjectBodies.
Context {C B : Type} `{!CosmosContainer C} `{!BlobContainer B}.

(** X25: a create request whose body is valid JSON but not an object never
    creates anything: the handler answers 400 or 500 without calling a
    store. It answers 400 exactly when the body is a list or a text in which
    the presence test fails; a list or text that passes the test fails at
    the first subscript, and a scalar fails at the test itself. *)
Theorem non_object_body_never_creates (env : Env) (req : HttpRequest)
    (w : World C B) (data : json) :
  parsed_json req = Some data →
  (∀ d, data ≠ JObj d) →
  create_asset env req w =
    (Return
       (match required_missing data with
        | Return true => text_response "title and blobUrl are required" 400
        | _ => error_response TypeError 500
        end), w).
Proof.
  intros Hjson Hdata. unfold create_asset, get_json. run. rewrite Hjson.
  simpl. destruct data as [| | | | |xs|d]; try done.
  - unfold required_missing. simpl.
    by destruct (str_contains _ _), (str_contains _ _).
  - unfold required_missing. simpl.
    by destruct (existsb _ _), (existsb _ _).
  - by destruct (Hdata d).
Qed.

End NonObjectBodies.

Lemma non_object_body_never_creates_witness :
  create_asset sample_env (json_request "" (Some (JArr []))) empty_world =
    (Return (text_response "title and blobUrl are required" 400),
     empty_world) ∧
  create_asset sample_env
    (json_request "" (Some (JStr "title and blobUrl"))) empty_world =
    (Return (error_response TypeError 500), empty_world).
Proof.
  split.
  - apply (non_object_body_never_creates sample_env _ empty_world (JArr []));
      [reflexivity|discriminate].
  - apply (non_object_body_never_creates sample_env _ empty_world
             (JStr "title and blobUrl")); [reflexivity|discriminate].
Defined.

(** ** Get and upload on the finite-map stores *)

(** X26: on a store that only fails for a missing id, [get_asset] always
    answers: 200 with the stored record when the id is stored and 404 with
    the fixed message when it is not. *)
Theorem get_found_or_404 (req : HttpRequest) (w : world) :
  get_asset req w =
    (Return
       (match container w !! route_id req with
        | Some asset => json_response (JObj asset) 200
        | None => text_response "Asset not found" 404
        end),
     log (ReadItem (route_id req)) w).
Proof.
  unfold get_asset. run. by destruct (container w !! route_id req).
Qed.

(** X27: an upload with a non-empty body replaces whatever blob had the
    generated name, with the request's content type or the octet-stream
    default, and leaves every other blob and the container URL alone. *)
Theorem upload_overwrites_one_blob (env : Env) (req : HttpRequest)
    (w : world) :
  get_body req ≠ [] →
  let after := blob_container (upload_file env req w).2 in
  let filename := uuid4 env +:+ ".bin" in
  objects after !! filename =
    Some (get_body req,
          match content_type req with
          | Some ctype => ctype
          | None => "application/octet-stream"
          end) ∧
  (∀ name, name ≠ filename →
     objects after !! name = objects (blob_container w) !! name) ∧
  container_url after = container_url (blob_container w).
Proof.
  intros Hbytes after filename. subst after.
  rewrite (upload_file_stores env req w Hbytes). simpl. split_and!.
  - rewrite lookup_insert_eq. by destruct (content_type req).
  - intros name Hne. by rewrite lookup_insert_ne.
  - done.
Qed.

Lemma upload_overwrites_one_blob_witness :
  let w : world :=
    {| container := ∅;
       blob_container :=
         {| container_url := sample_url;
            objects :=
              <[uuid4 sample_env +:+ ".bin" := ([], "text/plain")]>
                (objects (blob_container world_with_blob)) |};
       calls := [] |} in
  let after :=
    blob_container
      (upload_file sample_env (upload_request sample_bytes) w).2 in
  objects after !! (uuid4 sample_env +:+ ".bin") =
    Some (sample_bytes, "image/png") ∧
  objects after !! "photo.bin" =
    Some (sample_bytes, "application/octet-stream").
Proof.
  intros w after. subst after.
  destruct (upload_overwrites_one_blob sample_env
              (upload_request sample_bytes) w) as (Hnew & Hothers & _);
    [discriminate|].
  split; [apply Hnew|]. rewrite (Hothers "photo.bin"); [reflexivity|].
  discriminate.
Defined.
